(** * Configuration resolution of the C/C++ extension: provider registry
      (customProviders.ts) and configuration store (configurations.ts). *)

From Stdlib Require Import String Ascii List ZArith Bool Lia.
Import ListNotations.
Open Scope string_scope.
Open Scope Z_scope.

(** ** JavaScript values *)

(** A property that may be absent ([undefined]), [null] or hold a value. *)
Inductive js (A : Type) : Type :=
| Undef : js A
| Null : js A
| Val : A -> js A.
Arguments Undef {A}.
Arguments Null {A}.
Arguments Val {A} _.

(** JavaScript truthiness of an optional string: [""], [null] and
    [undefined] are falsy. *)
Definition truthy_str (s : js string) : bool :=
  match s with
  | Val x => negb (String.eqb x "")
  | _ => false
  end.

(** Truthiness of an optional object (arrays are truthy, even empty). *)
Definition truthy {A} (v : js A) : bool :=
  match v with Val _ => true | _ => false end.

Definition js_str_eqb (a b : js string) : bool :=
  match a, b with
  | Undef, Undef => true
  | Null, Null => true
  | Val x, Val y => String.eqb x y
  | _, _ => false
  end.

Lemma js_str_eqb_eq a b : js_str_eqb a b = true <-> a = b.
Proof.
  destruct a, b; simpl; split; intro H; try discriminate; try reflexivity;
    try (apply String.eqb_eq in H; subst; reflexivity).
  injection H as ->. apply String.eqb_refl.
Qed.

(** ** customProviders.ts *)
Module CustomProviders.

(** [Version] of the vscode-cpptools API (a numeric enum: v0 = 0, v1 = 1,
    v2 = 2, ...). *)
Definition Version := nat.
Definition v0 : Version := 0%nat.
Definition v1 : Version := 1%nat.
Definition v2 : Version := 2%nat.

(** A [CustomConfigurationProvider] object as handed to [add]: its string
    fields, and for each method whether the object has it. *)
Record CustomConfigurationProvider := {
  name : js string;
  extensionId : js string;
  has_canProvideConfiguration : bool;
  has_provideConfigurations : bool;
  has_canProvideBrowseConfiguration : bool;
  has_provideBrowseConfiguration : bool;
  has_dispose : bool
}.

(** [CustomProviderWrapper] *)
Record CustomProviderWrapper := {
  provider : CustomConfigurationProvider;
  _isReady : bool;
  _version : Version
}.

(** constructor(provider, version) *)
Definition mkWrapper (p : CustomConfigurationProvider) (version : Version)
  : CustomProviderWrapper :=
  let isReady := Nat.ltb version v2 in
  let version' :=
    if truthy_str (extensionId p) && Nat.eqb version v0 then v1 else version in
  {| provider := p; _isReady := isReady; _version := version' |}.

Definition isReady (w : CustomProviderWrapper) : bool := _isReady w.

(** set isReady(ready) *)
Definition setReady (w : CustomProviderWrapper) (ready : bool) : CustomProviderWrapper :=
  {| provider := provider w; _isReady := ready; _version := _version w |}.

Definition isValid (w : CustomProviderWrapper) : bool :=
  let p := provider w in
  let valid := truthy_str (name p) && has_canProvideConfiguration p
               && has_provideConfigurations p in
  let valid := if valid && Nat.ltb v0 (_version w)
               then truthy_str (extensionId p) && has_dispose p else valid in
  let valid := if valid && Nat.ltb v1 (_version w)
               then has_canProvideBrowseConfiguration p
                    && has_provideBrowseConfiguration p else valid in
  valid.

Definition version (w : CustomProviderWrapper) : Version := _version w.

Definition wname (w : CustomProviderWrapper) : js string := name (provider w).

(** get extensionId() *)
Definition wextensionId (w : CustomProviderWrapper) : js string :=
  if Nat.eqb (_version w) v0 then name (provider w) else extensionId (provider w).

(** Calls made on the wrapped provider object. *)
Inductive call := CallDispose.

(** dispose(): the calls it forwards to the provider. *)
Definition dispose (w : CustomProviderWrapper) : list call :=
  if negb (Nat.eqb (_version w) v0) then [CallDispose] else [].

(** The [Map<string, CustomProviderWrapper>] of the collection, in
    insertion order (the order [forEach] visits). *)
Definition Registry := list (js string * CustomProviderWrapper).

Fixpoint map_get (m : Registry) (k : js string) : option CustomProviderWrapper :=
  match m with
  | [] => None
  | (k', w) :: m' => if js_str_eqb k' k then Some w else map_get m' k
  end.

Definition map_has (m : Registry) (k : js string) : bool :=
  match map_get m k with Some _ => true | None => false end.

(** Map.set: replaces the value in place when the key is present,
    appends otherwise. *)
Fixpoint map_set (m : Registry) (k : js string) (w : CustomProviderWrapper) : Registry :=
  match m with
  | [] => [(k, w)]
  | (k', w') :: m' => if js_str_eqb k' k then (k', w) :: m' else (k', w') :: map_set m' k w
  end.

Fixpoint map_delete (m : Registry) (k : js string) : Registry :=
  match m with
  | [] => []
  | (k', w') :: m' => if js_str_eqb k' k then m' else (k', w') :: map_delete m' k
  end.

(** The console output of the collection. *)
Inductive log :=
| WarnDisabled
| ErrMissingProperties
| ErrAlreadyRegistered (id : js string)
| ErrInvalidProvider
| WarnNotRegistered (id : js string)
| WarnDuplicateName.

(** getId(provider) for a provider object. *)
Definition getId (p : CustomConfigurationProvider) : js string * list log :=
  if truthy_str (extensionId p) then (extensionId p, [])
  else if truthy_str (name p) then (name p, [])
  else (Val "", [ErrInvalidProvider]).

(** add(provider, version); [intelliSenseEngine] is the value of the
    [C_Cpp.intelliSenseEngine] setting read by [new CppSettings()].
    Returns the result, the new map and the console output. *)
Definition add (intelliSenseEngine : string) (providers : Registry)
    (p : CustomConfigurationProvider) (version : Version)
  : bool * Registry * list log :=
  if String.eqb intelliSenseEngine "Disabled" then (false, providers, [WarnDisabled])
  else
    let wrapper := mkWrapper p version in
    if negb (isValid wrapper) then (false, providers, [ErrMissingProperties])
    else
      let exists_ :=
        if map_has providers (wextensionId wrapper) then
          match map_get providers (wextensionId wrapper) with
          | Some existing => Nat.eqb (_version existing) v0 && Nat.eqb (_version wrapper) v0
          | None => false
          end
        else false in
      if negb exists_ then (true, map_set providers (wextensionId wrapper) wrapper, [])
      else (false, providers, [ErrAlreadyRegistered (wextensionId wrapper)]).

(** remove(provider) *)
Definition remove (providers : Registry) (p : CustomConfigurationProvider)
  : Registry * list log :=
  let '(id, l) := getId p in
  if map_has providers id then (map_delete providers id, l)
  else (providers, (l ++ [WarnNotRegistered id])%list).

(** checkId(providerId): the forEach loop, returning [noUpdate] and
    [found] (in visiting order). *)
Fixpoint checkId_loop (m : Registry) (providerId : js string)
  : bool * list CustomProviderWrapper :=
  match m with
  | [] => (false, [])
  | (_, w) :: m' =>
      let '(noUpdate, found) := checkId_loop m' providerId in
      if js_str_eqb (wextensionId w) providerId then (true, found)
      else if js_str_eqb (wname w) providerId && negb (Nat.eqb (version w) v0)
      then (noUpdate, w :: found)
      else (noUpdate, found)
  end.

Definition checkId (providers : Registry) (providerId : js string) : js string * list log :=
  if negb (truthy_str providerId) then (providerId, [])
  else
    let '(noUpdate, found) := checkId_loop providers providerId in
    if noUpdate then (providerId, [])
    else match found with
         | [w] => (wextensionId w, [])
         | [] => (providerId, [])
         | _ => (providerId, [WarnDuplicateName])
         end.

(** Registry states reachable from the empty collection. *)
Inductive reachable : Registry -> Prop :=
| reach_empty : reachable []
| reach_add e m p v : reachable m -> reachable (snd (fst (add e m p v)))
| reach_remove m p : reachable m -> reachable (fst (remove m p)).

(** logProblems(provider, version): the property names listed as missing
    (the declared version, before any promotion). *)
Definition logProblems (p : CustomConfigurationProvider) (version : Version) : list string :=
  ((if negb (truthy_str (name p)) then ["'name'"] else [])
   ++ (if negb (Nat.eqb version v0) && negb (truthy_str (extensionId p))
       then ["'extensionId'"] else [])
   ++ (if negb (has_canProvideConfiguration p) then ["'canProvideConfiguration'"] else [])
   ++ (if negb (has_provideConfigurations p) then ["'canProvideConfiguration'"] else [])
   ++ (if negb (Nat.eqb version v0) && negb (has_dispose p) then ["'dispose'"] else [])
   ++ (if Nat.leb v2 version && negb (has_canProvideBrowseConfiguration p)
       then ["'canProvideBrowseConfiguration'"] else [])
   ++ (if Nat.leb v2 version && negb (has_provideBrowseConfiguration p)
       then ["'provideBrowseConfiguration'"] else []))%list.

(** The argument of get: an identity string or a provider object. *)
Inductive provider_ref := ById (id : string) | ByObject (p : CustomConfigurationProvider).

(** getId(provider) for both kinds of argument. *)
Definition getId_ref (r : provider_ref) : js string * list log :=
  match r with
  | ById s => (Val s, [])
  | ByObject p => getId p
  end.

(** get(provider) *)
Definition get (providers : Registry) (r : provider_ref)
  : option CustomProviderWrapper * list log :=
  let '(id, l) := getId_ref r in
  if map_has providers id then (map_get providers id, l) else (None, l).

(** get size() *)
Definition size (providers : Registry) : nat := length providers.








End CustomProviders.

(** ** configurations.ts *)
Module Configurations.

Definition configVersion : Z := 4.

(** [limitSymbolsToIncludedHeaders: boolean | string] *)
Inductive bool_or_string := BBool (b : bool) | BStr (s : string).

Record Browse := {
  path : js (list string);
  limitSymbolsToIncludedHeaders : js bool_or_string;
  databaseFilename : js string
}.

Record Configuration := {
  name : string;
  compilerPath : js string;
  cStandard : js string;
  cppStandard : js string;
  includePath : js (list string);
  macFrameworkPath : js (list string);
  windowsSdkVersion : js string;
  defines : js (list string);
  intelliSenseMode : js string;
  compileCommands : js string;
  forcedInclude : js (list string);
  configurationProvider : js string;
  browse : js Browse
}.

(** [Environment = { [key: string]: string | string[] }], in key order. *)
Inductive env_value := EnvStr (s : string) | EnvList (l : list string).
Definition Environment := list (string * env_value).

Record ConfigurationJson := {
  configurations : list Configuration;
  env : js Environment;
  version : js Z
}.

(** An element of a [configurations] value that is not an array of
    configuration objects: an object, [null] or [undefined] (reading a
    property of it throws a TypeError), or a number, boolean or string
    (reading [name] of it gives [undefined]). *)
Inductive entry :=
  | EntryConfiguration (c : Configuration)
  | EntryNullish
  | EntryPrimitive.

(** A truthy [configurations] value other than an array of configuration
    objects: [NoLength] has no numeric length (a non-zero number, [true],
    an object without [length]); [Entries es] is an array, a string or an
    object with a non-negative integer [length], given by its elements at
    indices [0 .. length-1]. *)
Inductive unchecked_configurations :=
  | NoLength
  | Entries (es : list entry).

(** The value [JSON.parse] returns, by how parsePropertiesFile treats it:
    - [JsonDoc d]: an object whose [configurations] is an array of
      configuration objects;
    - [JsonNoConfigurations]: a value for which [!newJson ||
      !newJson.configurations] holds ([null], [false], [0], a string, a
      number, an array, an object whose [configurations] is missing or
      falsy);
    - [JsonUnchecked cs]: an object whose [configurations] is the truthy
      value [cs], which is not an array of configuration objects. *)
Inductive json_value :=
  | JsonDoc (d : ConfigurationJson)
  | JsonNoConfigurations
  | JsonUnchecked (cs : unchecked_configurations).

(** Values of the [C_Cpp.default.*] settings ([new CppSettings(rootUri)]);
    string-list settings are [null] ([None]) or an array. *)
Module CppSettings.
Record Settings := {
  defaultIncludePath : option (list string);
  defaultDefines : option (list string);
  defaultMacFrameworkPath : option (list string);
  defaultWindowsSdkVersion : js string;
  defaultForcedInclude : option (list string);
  defaultCompileCommands : js string;
  defaultCompilerPath : js string;
  defaultCStandard : js string;
  defaultCppStandard : js string;
  defaultIntelliSenseMode : js string;
  defaultConfigurationProvider : js string;
  defaultBrowsePath : option (list string);
  defaultLimitSymbolsToIncludedHeaders : js bool;
  defaultDatabaseFilename : js string
}.
End CppSettings.

(** The collaborators the store reads: [process.platform], the settings,
    the global provider collection, [JSON.parse] ([None]: it throws a
    SyntaxError), whether [fs.writeFileSync] of the properties file
    succeeds, the A/B setting [UseRecursiveIncludes] and the base name of
    the workspace folder. *)
Record Host := {
  platform : string;
  settings : CppSettings.Settings;
  providers : CustomProviders.Registry;
  JSON_parse : string -> option json_value;
  write_ok : bool;
  useRecursiveIncludes : bool;
  rootBasename : string
}.

(** Errors thrown inside the store. *)
Inductive exn :=
| ReadError                 (* fs.readFileSync throws *)
| SyntaxError               (* JSON.parse throws *)
| StructuralError           (* "Invalid configuration file. There must be at least one ..." *)
| TypeError.                (* property access on null/undefined *)

(** Messages shown through [vscode.window]. *)
Inductive ui_message :=
| ErrorFailedToParse (e : exn)
| ErrorUnknownVersion
| WarningWriteFailed.

Inductive event :=
| CompileCommandsWatchersRebuilt
| ConfigurationsChanged (cs : list Configuration).

(** The fields of [CppProperties] the reconciliation reads and writes, with
    the visible effects: messages shown, documents written to the
    properties file and events fired. *)
Record CppProperties := {
  propertiesFile : option string;
  configurationJson : js ConfigurationJson;
  currentConfigurationIndex : Z;
  configurationIncomplete : bool;
  defaultCompilerPath : js string;
  defaultCStandard : js string;
  defaultCppStandard : js string;
  defaultIncludes : js (list string);
  defaultFrameworks : js (list string);
  defaultWindowsSdkVersion : js string;
  defaultIntelliSenseMode : js string;
  vcpkgIncludes : list string;
  vcpkgPathReady : bool;
  shown : list ui_message;
  written : list ConfigurationJson;
  fired : list event
}.

Definition set_json (j : js ConfigurationJson) (s : CppProperties) : CppProperties :=
  {| propertiesFile := propertiesFile s; configurationJson := j;
     currentConfigurationIndex := currentConfigurationIndex s;
     configurationIncomplete := configurationIncomplete s;
     defaultCompilerPath := defaultCompilerPath s; defaultCStandard := defaultCStandard s;
     defaultCppStandard := defaultCppStandard s; defaultIncludes := defaultIncludes s;
     defaultFrameworks := defaultFrameworks s;
     defaultWindowsSdkVersion := defaultWindowsSdkVersion s;
     defaultIntelliSenseMode := defaultIntelliSenseMode s;
     vcpkgIncludes := vcpkgIncludes s; vcpkgPathReady := vcpkgPathReady s;
     shown := shown s; written := written s; fired := fired s |}.

Definition set_index (i : Z) (s : CppProperties) : CppProperties :=
  {| propertiesFile := propertiesFile s; configurationJson := configurationJson s;
     currentConfigurationIndex := i;
     configurationIncomplete := configurationIncomplete s;
     defaultCompilerPath := defaultCompilerPath s; defaultCStandard := defaultCStandard s;
     defaultCppStandard := defaultCppStandard s; defaultIncludes := defaultIncludes s;
     defaultFrameworks := defaultFrameworks s;
     defaultWindowsSdkVersion := defaultWindowsSdkVersion s;
     defaultIntelliSenseMode := defaultIntelliSenseMode s;
     vcpkgIncludes := vcpkgIncludes s; vcpkgPathReady := vcpkgPathReady s;
     shown := shown s; written := written s; fired := fired s |}.

Definition set_incomplete (b : bool) (s : CppProperties) : CppProperties :=
  {| propertiesFile := propertiesFile s; configurationJson := configurationJson s;
     currentConfigurationIndex := currentConfigurationIndex s;
     configurationIncomplete := b;
     defaultCompilerPath := defaultCompilerPath s; defaultCStandard := defaultCStandard s;
     defaultCppStandard := defaultCppStandard s; defaultIncludes := defaultIncludes s;
     defaultFrameworks := defaultFrameworks s;
     defaultWindowsSdkVersion := defaultWindowsSdkVersion s;
     defaultIntelliSenseMode := defaultIntelliSenseMode s;
     vcpkgIncludes := vcpkgIncludes s; vcpkgPathReady := vcpkgPathReady s;
     shown := shown s; written := written s; fired := fired s |}.

Definition add_effects (m : list ui_message) (w : list ConfigurationJson) (e : list event)
    (s : CppProperties) : CppProperties :=
  {| propertiesFile := propertiesFile s; configurationJson := configurationJson s;
     currentConfigurationIndex := currentConfigurationIndex s;
     configurationIncomplete := configurationIncomplete s;
     defaultCompilerPath := defaultCompilerPath s; defaultCStandard := defaultCStandard s;
     defaultCppStandard := defaultCppStandard s; defaultIncludes := defaultIncludes s;
     defaultFrameworks := defaultFrameworks s;
     defaultWindowsSdkVersion := defaultWindowsSdkVersion s;
     defaultIntelliSenseMode := defaultIntelliSenseMode s;
     vcpkgIncludes := vcpkgIncludes s; vcpkgPathReady := vcpkgPathReady s;
     shown := (shown s ++ m)%list; written := (written s ++ w)%list;
     fired := (fired s ++ e)%list |}.

(** A state and exception monad for the methods of [CppProperties].
    [Unmodelled] ends a run at the point where the code would hold a
    document [ConfigurationJson] cannot represent (see [JsonUnchecked]);
    the model does not follow the code past that point. *)
Inductive result (A : Type) := Ok (a : A) | Throw (e : exn) | Unmodelled.
Arguments Ok {A} _.
Arguments Throw {A} _.
Arguments Unmodelled {A}.

Definition M (A : Type) := CppProperties -> CppProperties * result A.

Definition ret {A} (a : A) : M A := fun s => (s, Ok a).
Definition bind {A B} (m : M A) (k : A -> M B) : M B :=
  fun s => let '(s', r) := m s in
           match r with
           | Ok a => k a s'
           | Throw e => (s', Throw e)
           | Unmodelled => (s', Unmodelled)
           end.
Definition get : M CppProperties := fun s => (s, Ok s).
Definition modify (f : CppProperties -> CppProperties) : M unit := fun s => (f s, Ok tt).
Definition throw {A} (e : exn) : M A := fun s => (s, Throw e).
Definition try_catch {A} (m : M A) (h : exn -> M A) : M A :=
  fun s => let '(s', r) := m s in
           match r with
           | Ok a => (s', Ok a)
           | Throw e => h e s'
           | Unmodelled => (s', Unmodelled)
           end.
Definition unmodelled {A} : M A := fun s => (s, Unmodelled).

Notation "x <- m ;; k" := (bind m (fun x => k))
  (at level 61, m at next level, right associativity).
Notation "m ;;; k" := (bind m (fun _ => k))
  (at level 61, right associativity).


(** Assignments [config.<field> = v]. *)
Definition set_compilerPath (v : js string) (c : Configuration) : Configuration :=
  {| name := name c; compilerPath := v; cStandard := cStandard c;
     cppStandard := cppStandard c; includePath := includePath c; macFrameworkPath := macFrameworkPath c;
     windowsSdkVersion := windowsSdkVersion c; defines := defines c; intelliSenseMode := intelliSenseMode c;
     compileCommands := compileCommands c; forcedInclude := forcedInclude c; configurationProvider := configurationProvider c;
     browse := browse c |}.

Definition set_cStandard (v : js string) (c : Configuration) : Configuration :=
  {| name := name c; compilerPath := compilerPath c; cStandard := v;
     cppStandard := cppStandard c; includePath := includePath c; macFrameworkPath := macFrameworkPath c;
     windowsSdkVersion := windowsSdkVersion c; defines := defines c; intelliSenseMode := intelliSenseMode c;
     compileCommands := compileCommands c; forcedInclude := forcedInclude c; configurationProvider := configurationProvider c;
     browse := browse c |}.

Definition set_cppStandard (v : js string) (c : Configuration) : Configuration :=
  {| name := name c; compilerPath := compilerPath c; cStandard := cStandard c;
     cppStandard := v; includePath := includePath c; macFrameworkPath := macFrameworkPath c;
     windowsSdkVersion := windowsSdkVersion c; defines := defines c; intelliSenseMode := intelliSenseMode c;
     compileCommands := compileCommands c; forcedInclude := forcedInclude c; configurationProvider := configurationProvider c;
     browse := browse c |}.

Definition set_includePath (v : js (list string)) (c : Configuration) : Configuration :=
  {| name := name c; compilerPath := compilerPath c; cStandard := cStandard c;
     cppStandard := cppStandard c; includePath := v; macFrameworkPath := macFrameworkPath c;
     windowsSdkVersion := windowsSdkVersion c; defines := defines c; intelliSenseMode := intelliSenseMode c;
     compileCommands := compileCommands c; forcedInclude := forcedInclude c; configurationProvider := configurationProvider c;
     browse := browse c |}.

Definition set_macFrameworkPath (v : js (list string)) (c : Configuration) : Configuration :=
  {| name := name c; compilerPath := compilerPath c; cStandard := cStandard c;
     cppStandard := cppStandard c; includePath := includePath c; macFrameworkPath := v;
     windowsSdkVersion := windowsSdkVersion c; defines := defines c; intelliSenseMode := intelliSenseMode c;
     compileCommands := compileCommands c; forcedInclude := forcedInclude c; configurationProvider := configurationProvider c;
     browse := browse c |}.

Definition set_windowsSdkVersion (v : js string) (c : Configuration) : Configuration :=
  {| name := name c; compilerPath := compilerPath c; cStandard := cStandard c;
     cppStandard := cppStandard c; includePath := includePath c; macFrameworkPath := macFrameworkPath c;
     windowsSdkVersion := v; defines := defines c; intelliSenseMode := intelliSenseMode c;
     compileCommands := compileCommands c; forcedInclude := forcedInclude c; configurationProvider := configurationProvider c;
     browse := browse c |}.

Definition set_defines (v : js (list string)) (c : Configuration) : Configuration :=
  {| name := name c; compilerPath := compilerPath c; cStandard := cStandard c;
     cppStandard := cppStandard c; includePath := includePath c; macFrameworkPath := macFrameworkPath c;
     windowsSdkVersion := windowsSdkVersion c; defines := v; intelliSenseMode := intelliSenseMode c;
     compileCommands := compileCommands c; forcedInclude := forcedInclude c; configurationProvider := configurationProvider c;
     browse := browse c |}.

Definition set_intelliSenseMode (v : js string) (c : Configuration) : Configuration :=
  {| name := name c; compilerPath := compilerPath c; cStandard := cStandard c;
     cppStandard := cppStandard c; includePath := includePath c; macFrameworkPath := macFrameworkPath c;
     windowsSdkVersion := windowsSdkVersion c; defines := defines c; intelliSenseMode := v;
     compileCommands := compileCommands c; forcedInclude := forcedInclude c; configurationProvider := configurationProvider c;
     browse := browse c |}.

Definition set_configurationProvider (v : js string) (c : Configuration) : Configuration :=
  {| name := name c; compilerPath := compilerPath c; cStandard := cStandard c;
     cppStandard := cppStandard c; includePath := includePath c; macFrameworkPath := macFrameworkPath c;
     windowsSdkVersion := windowsSdkVersion c; defines := defines c; intelliSenseMode := intelliSenseMode c;
     compileCommands := compileCommands c; forcedInclude := forcedInclude c; configurationProvider := v;
     browse := browse c |}.

(** [s.split(";")] *)
Fixpoint split_semicolon (s : string) : list string :=
  match s with
  | EmptyString => [""]
  | String c rest =>
      if Ascii.eqb c ";"%char then "" :: split_semicolon rest
      else match split_semicolon rest with
           | x :: xs => String c x :: xs
           | [] => [String c ""]
           end
  end.

(** [.filter(e => e)] on strings *)
Definition nonempty (e : string) : bool := negb (String.eqb e "").

Fixpoint env_lookup (e : Environment) (k : string) : option env_value :=
  match e with
  | [] => None
  | (k', v) :: e' => if String.eqb k' k then Some v else env_lookup e' k
  end.

Fixpoint join_semicolon (l : list string) : string :=
  match l with
  | [] => ""
  | [x] => x
  | x :: l' => x ++ ";" ++ join_semicolon l'
  end.

(** The characters up to the first ["}"], and what follows it. *)
Fixpoint read_name (s : string) : option (string * string) :=
  match s with
  | EmptyString => None
  | String c rest =>
      if Ascii.eqb c "}"%char then Some ("", rest)
      else match read_name rest with
           | Some (n, r) => Some (String c n, r)
           | None => None
           end
  end.

(** Modelled from the spec: [util.resolveVariables(input, env)] of
    src/common.ts, which is not in this tree (spec 4.2, Variable
    Resolver). Each placeholder [${name}] is replaced by the environment's
    string value, or by its sequence value joined with [";"]; the reserved
    [${default}] is never looked up; an unresolvable placeholder is left
    verbatim. One left-to-right pass; [fuel] is the input length. *)
Fixpoint resolve_fuel (fuel : nat) (s : string) (e : Environment) : string :=
  match fuel with
  | O => s
  | S fuel' =>
      match s with
      | EmptyString => EmptyString
      | String c rest =>
          let verbatim := String c (resolve_fuel fuel' rest e) in
          if Ascii.eqb c "$"%char then
            match rest with
            | String c2 rest2 =>
                if Ascii.eqb c2 "{"%char then
                  match read_name rest2 with
                  | Some (n, after) =>
                      let value :=
                        if String.eqb n "default" then "${" ++ n ++ "}"
                        else match env_lookup e n with
                             | Some (EnvStr v) => v
                             | Some (EnvList l) => join_semicolon l
                             | None => "${" ++ n ++ "}"
                             end in
                      value ++ resolve_fuel fuel' after e
                  | None => s
                  end
                else verbatim
            | EmptyString => verbatim
            end
          else verbatim
      end
  end.

Definition util_resolveVariables (input : string) (e : Environment) : string :=
  resolve_fuel (String.length input) input e.

Definition default_token : string := "${default}".

(** resolveDefaults(entries, defaultValue); [None] is a [null] default. *)
Definition resolveDefaults (entries : list string) (defaultValue : option (list string))
  : list string :=
  fold_left (fun result entry =>
               if String.eqb entry default_token then
                 match defaultValue with
                 | Some d => (result ++ d)%list
                 | None => result
                 end
               else (result ++ [entry])%list)
            entries [].

(** resolveAndSplit(paths, defaultValue, env) *)
Definition resolveAndSplit (paths : js (list string)) (defaultValue : option (list string))
    (e : Environment) : list string :=
  match paths with
  | Val ps =>
      fold_left (fun result entry =>
                   let entries := filter nonempty
                                    (split_semicolon (util_resolveVariables entry e)) in
                   let entries := resolveDefaults entries defaultValue in
                   (result ++ entries)%list)
                ps []
  | _ => []
  end.

Definition platName (platform : string) : string :=
  if String.eqb platform "darwin" then "Mac"
  else if String.eqb platform "win32" then "Win32"
  else "Linux".

(** getDefaultConfig() *)
Definition getDefaultConfig (platform : string) : Configuration :=
  {| name := platName platform; compilerPath := Undef; cStandard := Undef;
     cppStandard := Undef; includePath := Undef; macFrameworkPath := Undef;
     windowsSdkVersion := Undef; defines := Undef; intelliSenseMode := Undef;
     compileCommands := Undef; forcedInclude := Undef;
     configurationProvider := Undef; browse := Undef |}.

(** getDefaultCppProperties() *)
Definition getDefaultCppProperties (platform : string) : ConfigurationJson :=
  {| configurations := [getDefaultConfig platform]; env := Undef;
     version := Val configVersion |}.

(** getIntelliSenseModeForPlatform(name) *)
Definition getIntelliSenseModeForPlatform (platform name : string) : string :=
  if String.eqb name "Linux" then "gcc-x64"
  else if String.eqb name "Mac" then "clang-x64"
  else if String.eqb name "Win32" then "msvc-x64"
  else if String.eqb platform "win32" then "msvc-x64"
  else if String.eqb platform "darwin" then "clang-x64"
  else "gcc-x64".

(** The loop of getConfigIndexForPlatform: [i] runs over the indices of
    [this.configurationJson] and reads [config.configurations[i].name]. *)
Fixpoint platform_loop (plat : string) (cs : list Configuration) (i count : nat) (n : Z)
  : result Z :=
  match count with
  | O => Ok (n - 1)
  | S count' =>
      match nth_error cs i with
      | None => Throw TypeError
      | Some c => if String.eqb (name c) plat then Ok (Z.of_nat i)
                  else platform_loop plat cs (S i) count' n
      end
  end.


(** updateToVersion2() *)
Definition updateToVersion2 (j : ConfigurationJson) : ConfigurationJson :=
  {| configurations := configurations j; env := env j; version := Val 2 |}.

(** updateToVersion3(): the per-configuration step. *)
Definition updateConfigToVersion3 (platform : string) (config : Configuration) : Configuration :=
  if String.eqb (name config) "Mac"
     || (String.eqb platform "darwin" && negb (String.eqb (name config) "Win32")
         && negb (String.eqb (name config) "Linux"))
  then match macFrameworkPath config with
       | Undef => set_macFrameworkPath
                    (Val ["/System/Library/Frameworks"; "/Library/Frameworks"]) config
       | _ => config
       end
  else config.

Definition updateToVersion3 (platform : string) (j : ConfigurationJson) : ConfigurationJson :=
  {| configurations := map (updateConfigToVersion3 platform) (configurations j);
     env := env j; version := Val 3 |}.

Definition is_undefined {A} (v : js A) : bool :=
  match v with Undef => true | _ => false end.

(** updateToVersion4(): the per-configuration step; [st] is the state
    holding the compiler defaults ([this.defaultCompilerPath], ...). *)
Definition updateConfigToVersion4 (h : Host) (st : CppProperties) (config : Configuration)
  : Configuration :=
  let sets := settings h in
  let config :=
    if is_undefined (intelliSenseMode config)
       && negb (truthy_str (CppSettings.defaultIntelliSenseMode sets))
    then set_intelliSenseMode (Val (getIntelliSenseModeForPlatform (platform h) (name config))) config
    else config in
  let config :=
    if is_undefined (compilerPath config) && truthy_str (defaultCompilerPath st)
       && negb (truthy_str (compileCommands config))
       && negb (truthy_str (CppSettings.defaultCompilerPath sets))
    then set_compilerPath (defaultCompilerPath st) config
    else config in
  let config :=
    if negb (truthy_str (cStandard config)) && truthy_str (defaultCStandard st)
       && negb (truthy_str (CppSettings.defaultCStandard sets))
    then set_cStandard (defaultCStandard st) config
    else config in
  let config :=
    if negb (truthy_str (cppStandard config)) && truthy_str (defaultCppStandard st)
       && negb (truthy_str (CppSettings.defaultCppStandard sets))
    then set_cppStandard (defaultCppStandard st) config
    else config in
  config.

Definition updateToVersion4 (h : Host) (st : CppProperties) (j : ConfigurationJson)
  : ConfigurationJson :=
  {| configurations := map (updateConfigToVersion4 h st) (configurations j);
     env := env j; version := Val 4 |}.

Definition js_Z_eqb (a b : js Z) : bool :=
  match a, b with
  | Undef, Undef | Null, Null => true
  | Val x, Val y => Z.eqb x y
  | _, _ => false
  end.

(** [arr[i]] and [arr[i] = v] for an in-range or out-of-range index. *)
Definition nth_Z {A} (l : list A) (i : Z) : option A :=
  if i <? 0 then None else nth_error l (Z.to_nat i).

Fixpoint update_nth {A} (l : list A) (n : nat) (f : A -> A) : list A :=
  match l, n with
  | [], _ => []
  | x :: l', O => f x :: l'
  | x :: l', S n' => x :: update_nth l' n' f
  end.

Fixpoint find_index {A} (p : A -> bool) (l : list A) : option nat :=
  match l with
  | [] => None
  | x :: l' => if p x then Some O
               else match find_index p l' with Some i => Some (S i) | None => None end
  end.

Definition index_out_of_range (i : Z) (len : nat) : bool :=
  (i <? 0) || (Z.of_nat len <=? i).

(** The name-preserving remap at the start of parsePropertiesFile: the
    index in [newJson] of the first configuration named as the selected
    one, when defaulting is complete and the selection is in range. *)
Definition remap_index (st : CppProperties) (newJson : ConfigurationJson) : option Z :=
  if negb (configurationIncomplete st) then
    match configurationJson st with
    | Val old =>
        let idx := currentConfigurationIndex st in
        if negb (index_out_of_range idx (length (configurations old))) then
          match nth_Z (configurations old) idx with
          | Some cur =>
              match find_index (fun c => String.eqb (name c) (name cur))
                               (configurations newJson) with
              | Some i => Some (Z.of_nat i)
              | None => None
              end
          | None => None
          end
        else None
    | _ => None
    end
  else None.

(** The same loop over a [configurations] value that passes the check of
    parsePropertiesFile without being an array of configuration objects:
    [newJson.configurations[i].name] throws on a [null] element and is
    [undefined] on a primitive one. *)
Fixpoint entries_loop (curname : string) (es : list entry) (i : nat) : result (option Z) :=
  match es with
  | [] => Ok None
  | EntryConfiguration c :: es' =>
      if String.eqb (name c) curname then Ok (Some (Z.of_nat i))
      else entries_loop curname es' (S i)
  | EntryNullish :: _ => Throw TypeError
  | EntryPrimitive :: es' => entries_loop curname es' (S i)
  end.

Definition remap_unchecked (st : CppProperties) (cs : unchecked_configurations)
  : result (option Z) :=
  if negb (configurationIncomplete st) then
    match configurationJson st with
    | Val old =>
        let idx := currentConfigurationIndex st in
        if negb (index_out_of_range idx (length (configurations old))) then
          match nth_Z (configurations old) idx, cs with
          | Some cur, Entries es => entries_loop (name cur) es O
          | _, _ => Ok None
          end
        else Ok None
    | _ => Ok None
    end
  else Ok None.

(** The checkId loop of parsePropertiesFile: the new provider id of a
    configuration. *)
Definition corrected_provider (h : Host) (c : Configuration) : js string :=
  fst (CustomProviders.checkId (providers h) (configurationProvider c)).

Definition disallowed_env_keys : list string :=
  ["workspaceRoot"; "workspaceFolder"; "workspaceFolderBasename"; "default"].

Definition remove_disallowed (e : js Environment) : js Environment :=
  match e with
  | Val kv => Val (filter (fun p => negb (existsb (String.eqb (fst p)) disallowed_env_keys)) kv)
  | other => other
  end.


Section Store.
Variable h : Host.

(** getConfigIndexForPlatform(config) *)
Definition getConfigIndexForPlatform (config : ConfigurationJson) : M Z :=
  st <- get ;;
  match configurationJson st with
  | Val tj =>
      let n := length (configurations tj) in
      match platform_loop (platName (platform h)) (configurations config) O n (Z.of_nat n) with
      | Ok i => ret i
      | Throw e => throw e
      | Unmodelled => unmodelled
      end
  | _ => throw TypeError
  end.

(** resetToDefaultSettings(resetIndex) *)
Definition resetToDefaultSettings (resetIndex : bool) : M unit :=
  modify (set_json (Val (getDefaultCppProperties (platform h)))) ;;;
  st <- get ;;
  (if resetIndex || index_out_of_range (currentConfigurationIndex st) 1
   then i <- getConfigIndexForPlatform (getDefaultCppProperties (platform h)) ;;
        modify (set_index i)
   else ret tt) ;;;
  modify (set_incomplete true).

(** The version migration of parsePropertiesFile, run when the version is
    not [configVersion]. *)
Definition migrate (st : CppProperties) (j : ConfigurationJson)
  : ConfigurationJson * list ui_message :=
  let j := if is_undefined (version j) then updateToVersion2 j else j in
  let j := if js_Z_eqb (version j) (Val 2) then updateToVersion3 (platform h) j else j in
  if js_Z_eqb (version j) (Val 3) then (updateToVersion4 h st j, [])
  else ({| configurations := configurations j; env := env j; version := Val configVersion |},
        [ErrorUnknownVersion]).

(** parsePropertiesFile(), first block: keep the selection by name, assign
    the new document and bring the index back into range. *)
Definition selectIndex (newJson : ConfigurationJson) : M unit :=
  modify (fun st => match remap_index st newJson with
                    | Some i => set_index i st
                    | None => st
                    end) ;;;
  modify (set_json (Val newJson)) ;;;
  st <- get ;;
  if index_out_of_range (currentConfigurationIndex st) (length (configurations newJson))
  then i <- getConfigIndexForPlatform newJson ;; modify (set_index i)
  else ret tt.

(** parsePropertiesFile(), second block: provider ids through checkId,
    disallowed variables removed, version migration, rewrite when dirty. *)
Definition fixUpDocument (newJson : ConfigurationJson) : M unit :=
  let dirty := existsb (fun c => negb (js_str_eqb (corrected_provider h c)
                                                 (configurationProvider c)))
                       (configurations newJson) in
  let j := {| configurations :=
                map (fun c => set_configurationProvider (corrected_provider h c) c)
                    (configurations newJson);
              env := remove_disallowed (env newJson);
              version := version newJson |} in
  modify (set_incomplete false) ;;;
  st <- get ;;
  let '(dirty, j, msgs) :=
    if negb (js_Z_eqb (version j) (Val configVersion))
    then let '(j', m) := migrate st j in (true, j', m)
    else (dirty, j, []) in
  modify (set_json (Val j)) ;;;
  modify (add_effects msgs [] []) ;;;
  if dirty then
    if write_ok h then modify (add_effects [] [j] [])
    else modify (add_effects [WarningWriteFailed] [] [])
  else ret tt.

(** parsePropertiesFile(); [readResults] is what [fs.readFileSync] returns
    for the properties file ([None]: it throws). A [JsonUnchecked] value
    passes the check unless it has length 0; the remap loop runs over it
    (throwing on a [null] element it reaches), and the run then stops,
    [Unmodelled], at [this.configurationJson = newJson]. *)
Definition parsePropertiesFile (readResults : option string) : M unit :=
  try_catch
    (match readResults with
     | None => throw ReadError
     | Some content =>
       if String.eqb content "" then ret tt else
       match JSON_parse h content with
       | None => throw SyntaxError
       | Some JsonNoConfigurations => throw StructuralError
       | Some (JsonDoc newJson) =>
         match configurations newJson with
         | [] => throw StructuralError
         | _ => selectIndex newJson ;;; fixUpDocument newJson
         end
       | Some (JsonUnchecked (Entries [])) => throw StructuralError
       | Some (JsonUnchecked cs) =>
         st <- get ;;
         match remap_unchecked st cs with
         | Ok (Some i) => modify (set_index i) ;;; unmodelled
         | Ok None => unmodelled
         | Throw e => throw e
         | Unmodelled => unmodelled
         end
       end
     end)
    (fun err => modify (add_effects [ErrorFailedToParse err] [] []) ;;; throw err).

(** ExtendedEnvironment *)
Definition ExtendedEnvironment (j : ConfigurationJson) : Environment :=
  let result := match env j with Val e => e | _ => [] end in
  if existsb (fun p => String.eqb (fst p) "workspaceFolderBasename") result
  then map (fun p => if String.eqb (fst p) "workspaceFolderBasename"
                     then (fst p, EnvStr (rootBasename h)) else p) result
  else (result ++ [("workspaceFolderBasename", EnvStr (rootBasename h))])%list.

(** applyDefaultIncludePathsAndFrameworks(): the assignments made to
    [this.CurrentConfiguration], in source order. *)
Definition default_assignments (st : CppProperties) : list (Configuration -> Configuration) :=
  let sets := settings h in
  let rootFolder := if useRecursiveIncludes h then "${workspaceFolder}/**" else "${workspaceFolder}" in
  let when (b : bool) (f : Configuration -> Configuration) := if b then [f] else [] in
  (when (match CppSettings.defaultIncludePath sets with None => true | _ => false end)
        (set_includePath (Val (rootFolder :: vcpkgIncludes st)))
   ++ when (match CppSettings.defaultDefines sets with None => true | _ => false end)
        (set_defines (Val (if String.eqb (platform h) "win32"
                           then ["_DEBUG"; "UNICODE"; "_UNICODE"] else [])))
   ++ when (match CppSettings.defaultMacFrameworkPath sets with None => true | _ => false end
            && String.eqb (platform h) "darwin")
        (set_macFrameworkPath (defaultFrameworks st))
   ++ when (match CppSettings.defaultWindowsSdkVersion sets with Null => true | _ => false end
            && truthy_str (defaultWindowsSdkVersion st) && String.eqb (platform h) "win32")
        (set_windowsSdkVersion (defaultWindowsSdkVersion st))
   ++ when (match CppSettings.defaultCompilerPath sets with Null => true | _ => false end
            && truthy_str (defaultCompilerPath st))
        (set_compilerPath (defaultCompilerPath st))
   ++ when (match CppSettings.defaultCStandard sets with Null => true | _ => false end
            && truthy_str (defaultCStandard st))
        (set_cStandard (defaultCStandard st))
   ++ when (match CppSettings.defaultCppStandard sets with Null => true | _ => false end
            && truthy_str (defaultCppStandard st))
        (set_cppStandard (defaultCppStandard st))
   ++ when (match CppSettings.defaultIntelliSenseMode sets with Null => true | _ => false end)
        (set_intelliSenseMode (defaultIntelliSenseMode st)))%list.

Definition applyDefaultIncludePathsAndFrameworks : M unit :=
  st <- get ;;
  if configurationIncomplete st && truthy (defaultIncludes st) && truthy (defaultFrameworks st)
     && vcpkgPathReady st then
    match configurationJson st with
    | Val j =>
        let idx := currentConfigurationIndex st in
        let fs := default_assignments st in
        match fs, nth_Z (configurations j) idx with
        | [], _ => modify (set_incomplete false)
        | _, None => throw TypeError
        | _, Some _ =>
            modify (set_json (Val {| configurations :=
                                       update_nth (configurations j) (Z.to_nat idx)
                                         (fun c => fold_left (fun c f => f c) fs c);
                                     env := env j; version := version j |})) ;;;
            modify (set_incomplete false)
        end
    | _ => throw TypeError
    end
  else ret tt.

End Store.

(** resolveVariables(input, defaultValue, env) for a string property; a
    [null] or [undefined] value is passed through. *)
Definition resolveVariables_str (input defaultValue : js string) (e : Environment) : js string :=
  let input := match input with
               | Undef => defaultValue
               | Val s => if String.eqb s default_token then defaultValue else input
               | Null => input
               end in
  match input with
  | Val s => Val (util_resolveVariables s e)
  | other => other
  end.

(** updateConfiguration(property, defaultValue, env) for a string property. *)
Definition updateConfiguration_str (property defaultValue : js string) (e : Environment)
  : js string :=
  match property, defaultValue with
  | Val _, _ | _, Val _ => resolveVariables_str property defaultValue e
  | _, _ => property
  end.

(** updateConfiguration(property, defaultValue, env) for a string-list
    property. *)
Definition updateConfiguration_list (property : js (list string))
    (defaultValue : option (list string)) (e : Environment) : js (list string) :=
  match property with
  | Val _ => Val (resolveAndSplit property defaultValue e)
  | Undef => match defaultValue with
             | Some d => Val (resolveAndSplit (Val d) (Some []) e)
             | None => property
             end
  | Null => property
  end.

(** updateConfiguration(property, defaultValue, env) for
    [limitSymbolsToIncludedHeaders] ([boolean | string], boolean default). *)
Definition updateConfiguration_bs (property : js bool_or_string) (defaultValue : js bool)
    (e : Environment) : js bool_or_string :=
  match property with
  | Val (BStr s) =>
      if String.eqb s default_token then
        match defaultValue with Val b => Val (BBool b) | Null => Null | Undef => Undef end
      else Val (BStr (util_resolveVariables s e))
  | Val (BBool _) => property
  | Undef => match defaultValue with Val b => Val (BBool b) | _ => property end
  | Null => property
  end.

Definition workspace_root_forms : list string :=
  flat_map (fun r => map (fun suffix => "${" ++ r ++ "}" ++ suffix) [""; "\"; "\**"; "/"; "/**"])
           ["workspaceRoot"; "workspaceFolder"].


Section Reconcile.
Variable h : Host.

(** The loop body of updateServerOnFolderSettingsChange for one
    configuration. *)
Definition updateConfigurationEntry (e : Environment) (c : Configuration) : Configuration :=
  let sets := settings h in
  let includePath' := updateConfiguration_list (includePath c) (CppSettings.defaultIncludePath sets) e in
  let b := match browse c with
           | Val b => b
           | _ => {| path := Undef; limitSymbolsToIncludedHeaders := Undef;
                     databaseFilename := Undef |}
           end in
  let path' :=
    if negb (truthy (path b)) then
      match CppSettings.defaultBrowsePath sets with
      | Some bp => Val bp
      | None =>
          match includePath' with
          | Val ip =>
              if existsb (fun v => existsb (String.eqb v) workspace_root_forms) ip
              then Val ip else Val (ip ++ ["${workspaceFolder}"])%list
          | _ => path b
          end
      end
    else updateConfiguration_list (path b) (CppSettings.defaultBrowsePath sets) e in
  {| name := name c;
     compilerPath := updateConfiguration_str (compilerPath c) (CppSettings.defaultCompilerPath sets) e;
     cStandard := updateConfiguration_str (cStandard c) (CppSettings.defaultCStandard sets) e;
     cppStandard := updateConfiguration_str (cppStandard c) (CppSettings.defaultCppStandard sets) e;
     includePath := includePath';
     macFrameworkPath := updateConfiguration_list (macFrameworkPath c)
                           (CppSettings.defaultMacFrameworkPath sets) e;
     windowsSdkVersion := updateConfiguration_str (windowsSdkVersion c)
                            (CppSettings.defaultWindowsSdkVersion sets) e;
     defines := updateConfiguration_list (defines c) (CppSettings.defaultDefines sets) e;
     intelliSenseMode := updateConfiguration_str (intelliSenseMode c)
                           (CppSettings.defaultIntelliSenseMode sets) e;
     compileCommands := updateConfiguration_str (compileCommands c)
                          (CppSettings.defaultCompileCommands sets) e;
     forcedInclude := updateConfiguration_list (forcedInclude c)
                        (CppSettings.defaultForcedInclude sets) e;
     configurationProvider := updateConfiguration_str (configurationProvider c)
                                (CppSettings.defaultConfigurationProvider sets) e;
     browse := Val {| path := path';
                      limitSymbolsToIncludedHeaders :=
                        updateConfiguration_bs (limitSymbolsToIncludedHeaders b)
                          (CppSettings.defaultLimitSymbolsToIncludedHeaders sets) e;
                      databaseFilename :=
                        updateConfiguration_str (databaseFilename b)
                          (CppSettings.defaultDatabaseFilename sets) e |} |}.

(** updateServerOnFolderSettingsChange(); rebuilding the compile-commands
    file watchers is recorded as an event. *)
Definition updateServerOnFolderSettingsChange : M unit :=
  st <- get ;;
  match configurationJson st with
  | Val j =>
      let e := ExtendedEnvironment h j in
      let j' := {| configurations := map (updateConfigurationEntry e) (configurations j);
                   env := env j; version := version j |} in
      modify (set_json (Val j')) ;;;
      modify (add_effects [] [] [CompileCommandsWatchersRebuilt]) ;;;
      st <- get ;;
      if negb (configurationIncomplete st)
      then modify (add_effects [] [] [ConfigurationsChanged (configurations j')])
      else ret tt
  | _ => throw TypeError
  end.

(** handleConfigurationChange(); [readResults] is the content of the
    properties file when it is read. *)
Definition handleConfigurationChange (readResults : option string) : M unit :=
  st <- get ;;
  (match propertiesFile st with
   | Some _ =>
       parsePropertiesFile h readResults ;;;
       st <- get ;;
       match configurationJson st with
       | Undef => ret tt
       | Null => throw TypeError
       | Val j =>
           if index_out_of_range (currentConfigurationIndex st) (length (configurations j))
           then i <- getConfigIndexForPlatform h j ;; modify (set_index i)
           else ret tt
       end
   | None => ret tt
   end) ;;;
  st <- get ;;
  (if is_undefined (configurationJson st) then resetToDefaultSettings h true else ret tt) ;;;
  applyDefaultIncludePathsAndFrameworks h ;;;
  updateServerOnFolderSettingsChange.

(** onDidChangeSettings(); [readResults] as for handleConfigurationChange. *)
Definition onDidChangeSettings (readResults : option string) : M unit :=
  st <- get ;;
  match propertiesFile st with
  | None => resetToDefaultSettings h true ;;; handleConfigurationChange readResults
  | Some _ =>
      if negb (configurationIncomplete st) then handleConfigurationChange readResults
      else ret tt
  end.

End Reconcile.

(** The document fixUpDocument builds before the version check: provider
    ids through checkId, disallowed variables removed. *)
Definition fixed_document (h : Host) (newJson : ConfigurationJson) : ConfigurationJson :=
  {| configurations :=
       map (fun c => set_configurationProvider (corrected_provider h c) c) (configurations newJson);
     env := remove_disallowed (env newJson);
     version := version newJson |}.

End Configurations.

(** * Properties of the provider registry *)
Module CustomProvidersFacts.
Import CustomProviders.

Lemma map_get_set_same m k w : map_get (map_set m k w) k = Some w.
Proof.
  induction m as [|[k' w'] m IH]; simpl.
  - destruct k; simpl; try rewrite String.eqb_refl; reflexivity.
  - destruct (js_str_eqb k' k) eqn:E; simpl.
    + rewrite E. reflexivity.
    + rewrite E. exact IH.
Qed.

(** Every entry is keyed by its wrapper's identity and holds a valid
    wrapper. *)
Definition entry_ok (e : js string * CustomProviderWrapper) : Prop :=
  fst e = wextensionId (snd e) /\ isValid (snd e) = true.

Lemma map_set_ok m k w :
  Forall entry_ok m -> k = wextensionId w -> isValid w = true ->
  Forall entry_ok (map_set m k w).
Proof.
  intros Hm Hk Hv. induction Hm as [|[k' w'] m He Hm IH]; simpl.
  - constructor; [split; assumption | constructor].
  - destruct (js_str_eqb k' k) eqn:E.
    + apply js_str_eqb_eq in E. subst. constructor; [split; reflexivity || assumption | exact Hm].
    + constructor; assumption.
Qed.

Lemma map_delete_ok m k : Forall entry_ok m -> Forall entry_ok (map_delete m k).
Proof.
  intro Hm. induction Hm as [|[k' w'] m He Hm IH]; simpl.
  - constructor.
  - destruct (js_str_eqb k' k); [exact Hm | constructor; assumption].
Qed.

Lemma add_ok e m p v : Forall entry_ok m -> Forall entry_ok (snd (fst (add e m p v))).
Proof.
  intro Hm. unfold add.
  destruct (String.eqb e "Disabled"); [exact Hm|].
  destruct (isValid (mkWrapper p v)) eqn:Hv; simpl; [|exact Hm].
  match goal with |- context [if negb ?b then _ else _] => destruct b end;
    simpl; [exact Hm | apply map_set_ok; auto].
Qed.

Lemma remove_ok m p : Forall entry_ok m -> Forall entry_ok (fst (remove m p)).
Proof.
  intro Hm. unfold remove. destruct (getId p) as [id l].
  destruct (map_has m id); simpl; [apply map_delete_ok|]; exact Hm.
Qed.

Lemma reachable_ok m : reachable m -> Forall entry_ok m.
Proof.
  induction 1; [constructor | apply add_ok | apply remove_ok]; assumption.
Qed.

Lemma valid_identity_truthy w : isValid w = true -> truthy_str (wextensionId w) = true.
Proof.
  unfold isValid, wextensionId.
  destruct (truthy_str (name (provider w))) eqn:Hn; simpl; [|discriminate].
  destruct (has_canProvideConfiguration (provider w)); simpl; [|discriminate].
  destruct (has_provideConfigurations (provider w)); simpl; [|discriminate].
  destruct (_version w) as [|n]; simpl; [auto|].
  destruct (truthy_str (extensionId (provider w))); simpl; [auto|].
  destruct n; simpl; discriminate.
Qed.

Lemma valid_nonlegacy_name_truthy w :
  isValid w = true -> truthy_str (wname w) = true.
Proof.
  unfold isValid, wname.
  destruct (truthy_str (name (provider w))); simpl; [auto|].
  destruct (_version w) as [|[|n]]; simpl; discriminate.
Qed.

(** The forEach loop of checkId, as a search and a filter. *)
Lemma checkId_loop_spec m x :
  checkId_loop m x =
  (existsb (fun e => js_str_eqb (wextensionId (snd e)) x) m,
   filter (fun w => negb (js_str_eqb (wextensionId w) x)
                    && (js_str_eqb (wname w) x && negb (Nat.eqb (version w) v0)))
          (map snd m)).
Proof.
  induction m as [|[k w] m IH]; simpl; [reflexivity|].
  rewrite IH.
  destruct (js_str_eqb (wextensionId w) x); simpl; [reflexivity|].
  destruct (js_str_eqb (wname w) x && negb (Nat.eqb (version w) v0)); reflexivity.
Qed.

End CustomProvidersFacts.

(** * Provider registry claims *)
Module ProviderClaims.
Import CustomProviders CustomProvidersFacts.

(** A provider object with all its methods and the given name and id. *)
Definition full_provider (n ext : js string) : CustomConfigurationProvider :=
  {| name := n; extensionId := ext;
     has_canProvideConfiguration := true; has_provideConfigurations := true;
     has_canProvideBrowseConfiguration := true; has_provideBrowseConfiguration := true;
     has_dispose := true |}.

(** A legacy provider object: no id, no dispose, no browse methods. *)
Definition legacy_provider (n : js string) : CustomConfigurationProvider :=
  {| name := n; extensionId := Undef;
     has_canProvideConfiguration := true; has_provideConfigurations := true;
     has_canProvideBrowseConfiguration := false; has_provideBrowseConfiguration := false;
     has_dispose := false |}.

(** checkId as the claim describes it: exact identity match first, then a
    unique non-legacy display-name match, else the input. *)
Definition checkId_claimed (m : Registry) (id : string) : js string :=
  if existsb (fun e => js_str_eqb (fst e) (Val id)) m then Val id
  else match filter (fun w => js_str_eqb (wname w) (Val id) && negb (Nat.eqb (version w) v0))
                    (map snd m) with
       | [w] => wextensionId w
       | _ => Val id
       end.

Lemma add_true_inv e m p v m1 l1 :
  add e m p v = (true, m1, l1) ->
  String.eqb e "Disabled" = false /\ isValid (mkWrapper p v) = true /\
  m1 = map_set m (wextensionId (mkWrapper p v)) (mkWrapper p v).
Proof.
  unfold add. destruct (String.eqb e "Disabled"); [discriminate|].
  destruct (isValid (mkWrapper p v)); simpl; [|discriminate].
  match goal with |- context [if negb ?b then _ else _] => destruct b end;
    simpl; intro H; inversion H; auto.
Qed.

Lemma add_existing e m p v w0 :
  String.eqb e "Disabled" = false -> isValid (mkWrapper p v) = true ->
  map_get m (wextensionId (mkWrapper p v)) = Some w0 ->
  add e m p v =
  if Nat.eqb (_version w0) v0 && Nat.eqb (_version (mkWrapper p v)) v0
  then (false, m, [ErrAlreadyRegistered (wextensionId (mkWrapper p v))])
  else (true, map_set m (wextensionId (mkWrapper p v)) (mkWrapper p v), []).
Proof.
  intros He Hv Hg. unfold add, map_has.
  remember (mkWrapper p v) as w eqn:Hw. clear Hw.
  rewrite He, Hv, Hg. simpl.
  destruct (Nat.eqb (_version w0) v0 && Nat.eqb (_version w) v0); reflexivity.
Qed.

Lemma existsb_key_identity (m : Registry) x :
  Forall entry_ok m ->
  existsb (fun e => js_str_eqb (wextensionId (snd e)) x) m =
  existsb (fun e => js_str_eqb (fst e) x) m.
Proof.
  induction 1 as [|[k w] m [Hk _] _ IH]; simpl in *; [reflexivity|].
  rewrite Hk, IH. reflexivity.
Qed.

Lemma filter_no_identity (m : Registry) x (P : CustomProviderWrapper -> bool) :
  existsb (fun e => js_str_eqb (wextensionId (snd e)) x) m = false ->
  filter (fun w => negb (js_str_eqb (wextensionId w) x) && P w) (map snd m) =
  filter P (map snd m).
Proof.
  induction m as [|[k w] m IH]; simpl; [reflexivity|].
  intro H. apply orb_false_iff in H as [H1 H2].
  rewrite H1, IH by exact H2. reflexivity.
Qed.

Lemma no_empty_identity m :
  Forall entry_ok m -> existsb (fun e => js_str_eqb (fst e) (Val "")) m = false.
Proof.
  induction 1 as [|[k w] m [Hk Hv] _ IH]; simpl in *; [reflexivity|].
  rewrite IH, orb_false_r. subst k.
  pose proof (valid_identity_truthy w Hv) as T.
  destruct (wextensionId w) as [| |s]; simpl in *; try reflexivity.
  destruct (String.eqb s "") eqn:E; [discriminate | reflexivity].
Qed.

Lemma no_empty_name m :
  Forall entry_ok m ->
  filter (fun w => js_str_eqb (wname w) (Val "") && negb (Nat.eqb (version w) v0))
         (map snd m) = [].
Proof.
  induction 1 as [|[k w] m [Hk Hv] _ IH]; simpl in *; [reflexivity|].
  rewrite IH.
  pose proof (valid_nonlegacy_name_truthy w Hv) as T.
  destruct (wname w) as [| |s]; simpl in *; try reflexivity.
  destruct (String.eqb s "") eqn:E; [discriminate | reflexivity].
Qed.

(** C1 (amended): when the first [add] succeeded and a second valid provider
    has the same canonical identity, the second [add] is rejected (false,
    duplicate error, registry unchanged) if both are legacy v0 providers
    without an id, and accepted, replacing the first, if the second is
    registered at v1 or later. *)
Theorem add_same_identity_second_call e m p1 p2 ver1 ver2 m1 l1 :
  e <> "Disabled" ->
  isValid (mkWrapper p2 ver2) = true ->
  wextensionId (mkWrapper p1 ver1) = wextensionId (mkWrapper p2 ver2) ->
  add e m p1 ver1 = (true, m1, l1) ->
  (ver1 = v0 -> ver2 = v0 ->
   truthy_str (extensionId p1) = false -> truthy_str (extensionId p2) = false ->
   add e m1 p2 ver2 = (false, m1, [ErrAlreadyRegistered (wextensionId (mkWrapper p2 ver2))]))
  /\
  ((v1 <= ver2)%nat ->
   add e m1 p2 ver2 =
     (true, map_set m1 (wextensionId (mkWrapper p2 ver2)) (mkWrapper p2 ver2), [])
   /\ map_get (map_set m1 (wextensionId (mkWrapper p2 ver2)) (mkWrapper p2 ver2))
              (wextensionId (mkWrapper p2 ver2)) = Some (mkWrapper p2 ver2)).
Proof.
  intros He Hv2 Hid Hadd.
  apply add_true_inv in Hadd as (He' & _ & ->).
  assert (Hg : map_get (map_set m (wextensionId (mkWrapper p1 ver1)) (mkWrapper p1 ver1))
                       (wextensionId (mkWrapper p2 ver2)) = Some (mkWrapper p1 ver1))
    by (rewrite <- Hid; apply map_get_set_same).
  rewrite (add_existing _ _ _ _ _ He' Hv2 Hg).
  split.
  - intros -> -> H1 H2. unfold mkWrapper. simpl. rewrite H1, H2. reflexivity.
  - intro Hge. split; [|apply map_get_set_same].
    unfold mkWrapper at 2; simpl.
    destruct (truthy_str (extensionId p2)); simpl;
      (destruct ver2 as [|n]; [unfold v1 in Hge; lia|]); simpl;
      rewrite andb_false_r; reflexivity.
Qed.

Lemma add_same_identity_second_call_witness :
  "Default" <> "Disabled" /\
  isValid (mkWrapper (full_provider (Val "P") (Val "ext.p")) v1) = true /\
  wextensionId (mkWrapper (full_provider (Val "Q") (Val "ext.p")) v1) =
    wextensionId (mkWrapper (full_provider (Val "P") (Val "ext.p")) v1) /\
  add "Default" [] (full_provider (Val "Q") (Val "ext.p")) v1 =
    (true, [(Val "ext.p", mkWrapper (full_provider (Val "Q") (Val "ext.p")) v1)], []) /\
  ((v1 = v0 -> v1 = v0 ->
   truthy_str (extensionId (full_provider (Val "Q") (Val "ext.p"))) = false ->
   truthy_str (extensionId (full_provider (Val "P") (Val "ext.p"))) = false ->
   add "Default" [(Val "ext.p", mkWrapper (full_provider (Val "Q") (Val "ext.p")) v1)]
       (full_provider (Val "P") (Val "ext.p")) v1 =
     (false, [(Val "ext.p", mkWrapper (full_provider (Val "Q") (Val "ext.p")) v1)],
      [ErrAlreadyRegistered (wextensionId (mkWrapper (full_provider (Val "P") (Val "ext.p")) v1))]))
  /\
  ((v1 <= v1)%nat ->
   add "Default" [(Val "ext.p", mkWrapper (full_provider (Val "Q") (Val "ext.p")) v1)]
       (full_provider (Val "P") (Val "ext.p")) v1 =
     (true, map_set [(Val "ext.p", mkWrapper (full_provider (Val "Q") (Val "ext.p")) v1)]
              (wextensionId (mkWrapper (full_provider (Val "P") (Val "ext.p")) v1))
              (mkWrapper (full_provider (Val "P") (Val "ext.p")) v1), [])
   /\ map_get (map_set [(Val "ext.p", mkWrapper (full_provider (Val "Q") (Val "ext.p")) v1)]
                 (wextensionId (mkWrapper (full_provider (Val "P") (Val "ext.p")) v1))
                 (mkWrapper (full_provider (Val "P") (Val "ext.p")) v1))
              (wextensionId (mkWrapper (full_provider (Val "P") (Val "ext.p")) v1)) =
        Some (mkWrapper (full_provider (Val "P") (Val "ext.p")) v1))).
Proof.
  refine (conj _ (conj _ (conj _ (conj _ _)))); try discriminate; try reflexivity.
  apply (add_same_identity_second_call "Default" [] (full_provider (Val "Q") (Val "ext.p"))
           (full_provider (Val "P") (Val "ext.p")) v1 v1
           [(Val "ext.p", mkWrapper (full_provider (Val "Q") (Val "ext.p")) v1)] []);
    try discriminate; reflexivity.
Defined.

(** C1 (counterexample): a second legacy provider under the same name is
    rejected with a duplicate error, and a second v1 provider with the same
    id is accepted. *)
Lemma add_same_identity_counterexample :
  let m1 := snd (fst (add "Default" [] (legacy_provider (Val "P")) v0)) in
  add "Default" m1 (full_provider (Val "P") Undef) v0 =
    (false, m1, [ErrAlreadyRegistered (Val "P")])
  /\
  let n1 := snd (fst (add "Default" [] (full_provider (Val "P") (Val "ext.p")) v1)) in
  fst (fst (add "Default" n1 (full_provider (Val "Q") (Val "ext.p")) v1)) = true.
Proof. split; reflexivity. Qed.

(** C5: on every reachable registry, checkId returns the id when it is a
    registered identity, else the identity of the unique non-legacy
    provider whose name is the id, else the id; and after registering the
    v1 provider "Foo" with id "ext.foo", checkId maps "Foo" to "ext.foo" and
    leaves "ext.foo" and "Bar" unchanged. *)
Theorem checkId_resolves (m : Registry) (id : string) :
  reachable m ->
  fst (checkId m (Val id)) = checkId_claimed m id
  /\ (let r := snd (fst (add "Default" [] (full_provider (Val "Foo") (Val "ext.foo")) v1)) in
      fst (checkId r (Val "Foo")) = Val "ext.foo"
      /\ fst (checkId r (Val "ext.foo")) = Val "ext.foo"
      /\ fst (checkId r (Val "Bar")) = Val "Bar").
Proof.
  intro Hr. split; [|repeat split; reflexivity].
  pose proof (reachable_ok m Hr) as Hok.
  unfold checkId, checkId_claimed. rewrite checkId_loop_spec.
  destruct (String.eqb id "") eqn:E.
  - apply String.eqb_eq in E. subst id. simpl.
    rewrite (no_empty_identity m Hok), (no_empty_name m Hok). reflexivity.
  - simpl truthy_str. rewrite E. simpl negb. cbv iota.
    rewrite (existsb_key_identity m _ Hok).
    destruct (existsb (fun e => js_str_eqb (fst e) (Val id)) m) eqn:Ex; [reflexivity|].
    rewrite filter_no_identity by (rewrite existsb_key_identity; assumption).
    destruct (filter _ (map snd m)) as [|w [|w' l]]; reflexivity.
Qed.

Lemma checkId_resolves_witness :
  reachable (snd (fst (add "Default" [] (full_provider (Val "Foo") (Val "ext.foo")) v1)))
  /\ fst (checkId (snd (fst (add "Default" [] (full_provider (Val "Foo") (Val "ext.foo")) v1)))
               (Val "Foo"))
     = checkId_claimed (snd (fst (add "Default" [] (full_provider (Val "Foo") (Val "ext.foo")) v1)))
                       "Foo".
Proof.
  assert (H : reachable (snd (fst (add "Default" [] (full_provider (Val "Foo") (Val "ext.foo")) v1))))
    by (apply reach_add, reach_empty).
  split; [exact H | apply (checkId_resolves _ "Foo" H)].
Defined.

(** C7 (amended): a wrapper starts ready exactly when its declared version
    is below v2 (legacy providers are ready at once, v2 and later providers
    are not ready until marked ready through the setter). *)
Theorem wrapper_initial_readiness (p : CustomConfigurationProvider) (v : Version) :
  isReady (mkWrapper p v) = Nat.ltb v v2
  /\ (forall b, isReady (setReady (mkWrapper p v) b) = b).
Proof. split; reflexivity. Qed.

(** C7 (counterexample): a legacy v0 provider's wrapper starts ready. *)
Lemma legacy_wrapper_ready_counterexample :
  isReady (mkWrapper (legacy_provider (Val "P")) v0) = true.
Proof. reflexivity. Qed.

(** C8: a provider declared at v0 that carries an extensionId is promoted
    to v1: its identity is the extensionId, its validity also asks for the
    extensionId and dispose (and nothing of v2), and dispose is forwarded. *)
Theorem legacy_with_extensionId_promoted (p : CustomConfigurationProvider) :
  truthy_str (extensionId p) = true ->
  version (mkWrapper p v0) = v1
  /\ wextensionId (mkWrapper p v0) = extensionId p
  /\ isValid (mkWrapper p v0) =
       truthy_str (name p) && has_canProvideConfiguration p
       && has_provideConfigurations p && truthy_str (extensionId p) && has_dispose p
  /\ dispose (mkWrapper p v0) = [CallDispose].
Proof.
  intro H. unfold mkWrapper, version, wextensionId, isValid, dispose. simpl.
  rewrite H. simpl. repeat split; [].
  destruct (truthy_str (name p)), (has_canProvideConfiguration p),
    (has_provideConfigurations p), (has_dispose p); reflexivity.
Qed.

Lemma legacy_with_extensionId_promoted_witness :
  truthy_str (extensionId (full_provider (Val "Foo") (Val "ext.foo"))) = true
  /\ version (mkWrapper (full_provider (Val "Foo") (Val "ext.foo")) v0) = v1.
Proof.
  split; [reflexivity|].
  apply (legacy_with_extensionId_promoted (full_provider (Val "Foo") (Val "ext.foo"))).
  reflexivity.
Defined.

(** C9: with the IntelliSense engine setting "Disabled", add returns false
    and leaves the registry unchanged, for every provider and version. *)
Theorem add_disabled_engine (m : Registry) (p : CustomConfigurationProvider) (v : Version) :
  add "Disabled" m p v = (false, m, [WarnDisabled]).
Proof. reflexivity. Qed.

End ProviderClaims.

(** * Configuration store: general facts *)
Module ConfigurationsFacts.
Import Configurations.

Lemma fold_left_app_flat_map {A B} (f : A -> list B) (l : list A) (acc : list B) :
  fold_left (fun r x => (r ++ f x)%list) l acc = (acc ++ flat_map f l)%list.
Proof.
  revert acc. induction l as [|x l IH]; intro acc; simpl.
  - rewrite app_nil_r. reflexivity.
  - rewrite IH, app_assoc. reflexivity.
Qed.

Lemma fold_left_ext_fun {A B} (f g : A -> B -> A) (l : list B) (a : A) :
  (forall r x, f r x = g r x) -> fold_left f l a = fold_left g l a.
Proof.
  intro H. revert a. induction l as [|x l IH]; intro a; simpl; [reflexivity|].
  rewrite H. apply IH.
Qed.

(** The expansion of one piece of a resolved entry. *)
Definition expand_piece (defaultValue : option (list string)) (piece : string) : list string :=
  if String.eqb piece default_token then
    match defaultValue with Some d => d | None => [] end
  else [piece].

Lemma resolveDefaults_flat_map entries defaultValue :
  resolveDefaults entries defaultValue = flat_map (expand_piece defaultValue) entries.
Proof.
  unfold resolveDefaults.
  transitivity (fold_left (fun r x => (r ++ expand_piece defaultValue x)%list) entries []);
    [|rewrite fold_left_app_flat_map; reflexivity].
  apply fold_left_ext_fun. intros r x. unfold expand_piece.
  destruct (String.eqb x default_token); [destruct defaultValue|]; simpl;
    rewrite ?app_nil_r; reflexivity.
Qed.

Lemma resolveAndSplit_flat_map paths defaultValue e :
  resolveAndSplit (Val paths) defaultValue e =
  flat_map (fun entry =>
              flat_map (expand_piece defaultValue)
                       (filter nonempty (split_semicolon (util_resolveVariables entry e))))
           paths.
Proof.
  unfold resolveAndSplit.
  transitivity (fold_left (fun r x => (r ++ (fun entry =>
              flat_map (expand_piece defaultValue)
                       (filter nonempty (split_semicolon (util_resolveVariables entry e)))) x)%list)
                          paths []);
    [|rewrite fold_left_app_flat_map; reflexivity].
  apply fold_left_ext_fun. intros r x. rewrite resolveDefaults_flat_map. reflexivity.
Qed.


(** The four back-fill steps of updateToVersion4, with their guards. *)
Section V4Steps.
Variable h : Host.
Variable st : CppProperties.

Definition g_ism (c : Configuration) : bool :=
  is_undefined (intelliSenseMode c)
  && negb (truthy_str (CppSettings.defaultIntelliSenseMode (settings h))).
Definition g_cp (c : Configuration) : bool :=
  is_undefined (compilerPath c) && truthy_str (defaultCompilerPath st)
  && negb (truthy_str (compileCommands c))
  && negb (truthy_str (CppSettings.defaultCompilerPath (settings h))).
Definition g_cs (c : Configuration) : bool :=
  negb (truthy_str (cStandard c)) && truthy_str (defaultCStandard st)
  && negb (truthy_str (CppSettings.defaultCStandard (settings h))).
Definition g_cpps (c : Configuration) : bool :=
  negb (truthy_str (cppStandard c)) && truthy_str (defaultCppStandard st)
  && negb (truthy_str (CppSettings.defaultCppStandard (settings h))).

Definition step_ism (c : Configuration) : Configuration :=
  if g_ism c then set_intelliSenseMode (Val (getIntelliSenseModeForPlatform (platform h) (name c))) c
  else c.
Definition step_cp (c : Configuration) : Configuration :=
  if g_cp c then set_compilerPath (defaultCompilerPath st) c else c.
Definition step_cs (c : Configuration) : Configuration :=
  if g_cs c then set_cStandard (defaultCStandard st) c else c.
Definition step_cpps (c : Configuration) : Configuration :=
  if g_cpps c then set_cppStandard (defaultCppStandard st) c else c.

Lemma updateConfigToVersion4_steps c :
  updateConfigToVersion4 h st c = step_cpps (step_cs (step_cp (step_ism c))).
Proof. reflexivity. Qed.

Lemma step_ism_done c : g_ism (step_ism c) = false.
Proof.
  unfold step_ism. destruct (g_ism c) eqn:G; [|exact G]. reflexivity.
Qed.

Lemma step_cp_done c : g_cp (step_cp c) = false.
Proof.
  unfold step_cp. destruct (g_cp c) eqn:G; [|exact G].
  unfold g_cp in *. simpl.
  destruct (defaultCompilerPath st) as [| |x]; simpl in *;
    rewrite ?andb_false_r in G; try discriminate; reflexivity.
Qed.

Lemma step_cs_done c : g_cs (step_cs c) = false.
Proof.
  unfold step_cs. destruct (g_cs c) eqn:G; [|exact G].
  unfold g_cs in *. simpl.
  destruct (truthy_str (defaultCStandard st)); reflexivity.
Qed.

Lemma step_cpps_done c : g_cpps (step_cpps c) = false.
Proof.
  unfold step_cpps. destruct (g_cpps c) eqn:G; [|exact G].
  unfold g_cpps in *. simpl.
  destruct (truthy_str (defaultCppStandard st)); reflexivity.
Qed.

Lemma step_ism_skip c : g_ism c = false -> step_ism c = c.
Proof. unfold step_ism. intros ->. reflexivity. Qed.
Lemma step_cp_skip c : g_cp c = false -> step_cp c = c.
Proof. unfold step_cp. intros ->. reflexivity. Qed.
Lemma step_cs_skip c : g_cs c = false -> step_cs c = c.
Proof. unfold step_cs. intros ->. reflexivity. Qed.
Lemma step_cpps_skip c : g_cpps c = false -> step_cpps c = c.
Proof. unfold step_cpps. intros ->. reflexivity. Qed.

(** A step leaves the guards of the other steps as they were. *)
Lemma g_ism_cp c : g_ism (step_cp c) = g_ism c.
Proof. unfold step_cp. destruct (g_cp c); reflexivity. Qed.
Lemma g_ism_cs c : g_ism (step_cs c) = g_ism c.
Proof. unfold step_cs. destruct (g_cs c); reflexivity. Qed.
Lemma g_ism_cpps c : g_ism (step_cpps c) = g_ism c.
Proof. unfold step_cpps. destruct (g_cpps c); reflexivity. Qed.
Lemma g_cp_cs c : g_cp (step_cs c) = g_cp c.
Proof. unfold step_cs. destruct (g_cs c); reflexivity. Qed.
Lemma g_cp_cpps c : g_cp (step_cpps c) = g_cp c.
Proof. unfold step_cpps. destruct (g_cpps c); reflexivity. Qed.
Lemma g_cs_cpps c : g_cs (step_cpps c) = g_cs c.
Proof. unfold step_cpps. destruct (g_cpps c); reflexivity. Qed.

Lemma updateConfigToVersion4_idem c :
  updateConfigToVersion4 h st (updateConfigToVersion4 h st c) = updateConfigToVersion4 h st c.
Proof.
  rewrite !updateConfigToVersion4_steps.
  set (c4 := step_cpps (step_cs (step_cp (step_ism c)))).
  assert (H1 : g_ism c4 = false)
    by (unfold c4; rewrite g_ism_cpps, g_ism_cs, g_ism_cp; apply step_ism_done).
  rewrite (step_ism_skip _ H1).
  assert (H2 : g_cp c4 = false)
    by (unfold c4; rewrite g_cp_cpps, g_cp_cs; apply step_cp_done).
  rewrite (step_cp_skip _ H2).
  assert (H3 : g_cs c4 = false) by (unfold c4; rewrite g_cs_cpps; apply step_cs_done).
  rewrite (step_cs_skip _ H3).
  assert (H4 : g_cpps c4 = false) by (unfold c4; apply step_cpps_done).
  rewrite (step_cpps_skip _ H4). reflexivity.
Qed.

Lemma updateConfigToVersion4_keeps c :
  name (updateConfigToVersion4 h st c) = name c
  /\ macFrameworkPath (updateConfigToVersion4 h st c) = macFrameworkPath c.
Proof.
  rewrite updateConfigToVersion4_steps. unfold step_cpps, step_cs, step_cp, step_ism.
  repeat match goal with |- context [if ?b then _ else _] => destruct b end;
    split; reflexivity.
Qed.

End V4Steps.

Definition mac_guard (platform : string) (config : Configuration) : bool :=
  String.eqb (name config) "Mac"
  || (String.eqb platform "darwin" && negb (String.eqb (name config) "Win32")
      && negb (String.eqb (name config) "Linux")).

Lemma updateConfigToVersion3_fixed p c :
  (mac_guard p c = true -> macFrameworkPath c <> Undef) -> updateConfigToVersion3 p c = c.
Proof.
  unfold updateConfigToVersion3. fold (mac_guard p c).
  destruct (mac_guard p c); [|reflexivity].
  intro H. specialize (H eq_refl). destruct (macFrameworkPath c); [congruence | reflexivity..].
Qed.

Lemma updateConfigToVersion3_done p c :
  name (updateConfigToVersion3 p c) = name c
  /\ (mac_guard p c = true -> macFrameworkPath (updateConfigToVersion3 p c) <> Undef).
Proof.
  unfold updateConfigToVersion3. fold (mac_guard p c).
  destruct (mac_guard p c); [|split; [reflexivity | discriminate]].
  destruct (macFrameworkPath c) eqn:M; (split; [reflexivity | simpl; rewrite ?M; discriminate]).
Qed.

Lemma updateConfigToVersion3_after_4 h st c :
  updateConfigToVersion3 (platform h) (updateConfigToVersion4 h st (updateConfigToVersion3 (platform h) c))
  = updateConfigToVersion4 h st (updateConfigToVersion3 (platform h) c).
Proof.
  destruct (updateConfigToVersion3_done (platform h) c) as [Hn1 Hm1].
  destruct (updateConfigToVersion4_keeps h st (updateConfigToVersion3 (platform h) c)) as [Hn Hm].
  apply updateConfigToVersion3_fixed.
  unfold mac_guard. rewrite Hn, Hn1. fold (mac_guard (platform h) c).
  rewrite Hm. exact Hm1.
Qed.

End ConfigurationsFacts.

(** * Configuration store: facts about the reconciliation *)
Module ReconcileFacts.
Import Configurations.

(** The value getConfigIndexForPlatform returns when [this.configurationJson]
    is the document it searches. *)
Definition platform_index (plat : string) (cs : list Configuration) : Z :=
  match find_index (fun c => String.eqb (name c) plat) cs with
  | Some k => Z.of_nat k
  | None => Z.of_nat (length cs) - 1
  end.

(** The index parsePropertiesFile selects: the name remap, then the
    platform index when the result is out of range of the new list. *)
Definition final_index (h : Host) (st : CppProperties) (newJson : ConfigurationJson) : Z :=
  let i := match remap_index st newJson with
           | Some i => i
           | None => currentConfigurationIndex st
           end in
  if index_out_of_range i (length (configurations newJson))
  then platform_index (platName (platform h)) (configurations newJson)
  else i.

(** Length of the configuration list held by a state, if any. *)
Definition json_len (s : CppProperties) : option nat :=
  match configurationJson s with Val j => Some (length (configurations j)) | _ => None end.


Lemma skipn_nth_error_cons {A} (l : list A) i x :
  nth_error l i = Some x -> skipn i l = x :: skipn (S i) l.
Proof.
  revert l. induction i as [|i IH]; intros [|y l] H; simpl in *; try discriminate.
  - injection H as ->. reflexivity.
  - apply IH. exact H.
Qed.

Lemma platform_loop_spec plat cs n : forall count i,
  (i + count = length cs)%nat ->
  platform_loop plat cs i count n =
  match find_index (fun c => String.eqb (name c) plat) (skipn i cs) with
  | Some k => Ok (Z.of_nat (i + k))
  | None => Ok (n - 1)
  end.
Proof.
  induction count as [|count IH]; intros i Hi; simpl.
  - rewrite skipn_all2 by lia. reflexivity.
  - destruct (nth_error cs i) as [c|] eqn:E.
    + rewrite (skipn_nth_error_cons cs i c E). cbn [find_index].
      destruct (String.eqb (name c) plat).
      * rewrite Nat.add_0_r. reflexivity.
      * rewrite IH by lia.
        destruct (find_index _ (skipn (S i) cs)); [|reflexivity].
        rewrite Nat.add_succ_r. reflexivity.
    + apply nth_error_None in E. lia.
Qed.

Lemma getConfigIndexForPlatform_self h st j :
  configurationJson st = Val j ->
  getConfigIndexForPlatform h j st = (st, Ok (platform_index (platName (platform h)) (configurations j))).
Proof.
  intro Hj. unfold getConfigIndexForPlatform, bind, get. rewrite Hj.
  rewrite platform_loop_spec by lia. simpl. unfold platform_index.
  destruct (find_index _ _); reflexivity.
Qed.



Lemma migrate_length h st j :
  length (configurations (fst (migrate h st j))) = length (configurations j).
Proof.
  unfold migrate.
  destruct (is_undefined (version j)); simpl;
  repeat match goal with |- context [if ?b then _ else _] => destruct b end;
  simpl; rewrite ?length_map; reflexivity.
Qed.


Lemma selectIndex_spec h st newJson :
  configurations newJson <> [] ->
  selectIndex h newJson st =
  (set_index (final_index h st newJson) (set_json (Val newJson) st), Ok tt).
Proof.
  intro Hne. unfold selectIndex, final_index, bind, get, modify, ret.
  destruct (remap_index st newJson) as [r|] eqn:R; cbn [currentConfigurationIndex set_index set_json].
  - destruct (index_out_of_range r _) eqn:O.
    + rewrite getConfigIndexForPlatform_self by reflexivity. reflexivity.
    + reflexivity.
  - destruct (index_out_of_range (currentConfigurationIndex st) _) eqn:O.
    + rewrite getConfigIndexForPlatform_self by reflexivity. reflexivity.
    + destruct st; reflexivity.
Qed.

Lemma fixUpDocument_spec h newJson s :
  exists s', fixUpDocument h newJson s = (s', Ok tt)
    /\ currentConfigurationIndex s' = currentConfigurationIndex s
    /\ propertiesFile s' = propertiesFile s
    /\ configurationIncomplete s' = false
    /\ exists j', configurationJson s' = Val j'
                  /\ length (configurations j') = length (configurations newJson).
Proof.
  unfold fixUpDocument, bind, get, modify, ret.
  cbn [configurations version].
  destruct (negb (js_Z_eqb _ _)).
  - destruct (migrate h _ _) as [j' m] eqn:Mg.
    assert (L := migrate_length h (set_incomplete false s)
      {| configurations := map (fun c => set_configurationProvider (corrected_provider h c) c)
                                (configurations newJson);
         env := remove_disallowed (env newJson); version := version newJson |}).
    rewrite Mg in L. cbn in L. rewrite length_map in L.
    destruct (write_ok h); eexists; (split; [reflexivity|]); cbn;
      repeat split; eexists; split; first [reflexivity | exact L].
  - destruct (existsb _ _); [destruct (write_ok h)|];
    eexists; (split; [reflexivity|]); cbn; repeat split; eexists; (split; [reflexivity|]);
    cbn; apply length_map.
Qed.

Lemma parsePropertiesFile_success h st content newJson :
  content <> "" -> JSON_parse h content = Some (JsonDoc newJson) ->
  configurations newJson <> [] ->
  parsePropertiesFile h (Some content) st =
  fixUpDocument h newJson (set_index (final_index h st newJson) (set_json (Val newJson) st)).
Proof.
  intros Hne Hp Hcs. apply String.eqb_neq in Hne.
  unfold parsePropertiesFile, try_catch. rewrite Hne, Hp.
  destruct (configurations newJson) eqn:Hc; [congruence|].
  rewrite <- Hc in Hcs. unfold bind at 1. rewrite selectIndex_spec by exact Hcs.
  destruct (fixUpDocument_spec h newJson (set_index (final_index h st newJson) (set_json (Val newJson) st)))
    as (s' & E & _). rewrite E. reflexivity.
Qed.



Lemma index_out_of_range_false i n :
  index_out_of_range i n = false <-> 0 <= i < Z.of_nat n.
Proof.
  unfold index_out_of_range. rewrite orb_false_iff, Z.ltb_ge, Z.leb_gt. lia.
Qed.



Lemma applyDefault_keeps h st s' u :
  applyDefaultIncludePathsAndFrameworks h st = (s', Ok u) ->
  currentConfigurationIndex s' = currentConfigurationIndex st /\ json_len s' = json_len st.
Proof.
  unfold applyDefaultIncludePathsAndFrameworks, bind, get, modify, ret, throw, json_len.
  destruct (_ && _ && _ && _).
  - destruct (configurationJson st) as [| |j] eqn:E; try discriminate.
    destruct (default_assignments h st) as [|f fs].
    + intro H; injection H as <- _. cbn. rewrite E. split; reflexivity.
    + destruct (nth_Z _ _) as [c|]; [|discriminate].
      intro H; injection H as <- _. cbn. split; [reflexivity|].
      f_equal. clear. generalize (Z.to_nat (currentConfigurationIndex st)).
      induction (configurations j) as [|x l IH]; intros [|n]; simpl; auto.
  - intro H; injection H as <- _. split; reflexivity.
Qed.



Lemma find_index_first {A} (p : A -> bool) (l : list A) i c :
  nth_error l i = Some c -> p c = true ->
  (forall k c', (k < i)%nat -> nth_error l k = Some c' -> p c' = false) ->
  find_index p l = Some i.
Proof.
  revert i. induction l as [|x l IH]; intros i Hi Hc Hb; [destruct i; discriminate|].
  destruct i as [|i]; cbn [find_index].
  - cbn in Hi. injection Hi as ->. rewrite Hc. reflexivity.
  - rewrite (Hb O x) by (reflexivity || lia).
    rewrite (IH i Hi Hc); [reflexivity|].
    intros k c' Hk Hk'. apply (Hb (S k)); [lia | exact Hk'].
Qed.

Lemma nth_Z_in_range {A} (l : list A) i x :
  nth_Z l i = Some x -> index_out_of_range i (length l) = false.
Proof.
  unfold nth_Z. intro H. apply index_out_of_range_false.
  destruct (i <? 0) eqn:E; [discriminate|]. apply Z.ltb_ge in E.
  assert (L : (Z.to_nat i < length l)%nat) by (apply nth_error_Some; congruence). lia.
Qed.

End ReconcileFacts.

(** * Configuration store claims *)
Module ConfigurationClaims.
Import Configurations ConfigurationsFacts ReconcileFacts.

(** The list merge as the claim words it: each entry variable-resolved,
    a default-token entry replaced by the default sequence. *)
Definition resolveAndSplit_claimed (paths : list string) (defaultValue : option (list string))
    (e : Environment) : list string :=
  flat_map (fun entry => expand_piece defaultValue (util_resolveVariables entry e)) paths.

(** Test inputs: a configuration with only a name, a document of such
    configurations, [JSON.parse] given by a table of texts, settings all
    unset, a Linux host and a state read from a properties file. *)
Definition named_config (n : string) : Configuration :=
  {| name := n; compilerPath := Undef; cStandard := Undef;
     cppStandard := Undef; includePath := Undef; macFrameworkPath := Undef;
     windowsSdkVersion := Undef; defines := Undef; intelliSenseMode := Undef;
     compileCommands := Undef; forcedInclude := Undef;
     configurationProvider := Undef; browse := Undef |}.

Definition doc (ns : list string) (v : Z) : ConfigurationJson :=
  {| configurations := map named_config ns; env := Undef; version := Val v |}.

Definition table_parse (tbl : list (string * json_value)) (s : string) : option json_value :=
  option_map snd (find (fun p => String.eqb (fst p) s) tbl).

Definition settings0 : CppSettings.Settings :=
  {| CppSettings.defaultIncludePath := None; CppSettings.defaultDefines := None;
     CppSettings.defaultMacFrameworkPath := None; CppSettings.defaultWindowsSdkVersion := Null;
     CppSettings.defaultForcedInclude := None; CppSettings.defaultCompileCommands := Null;
     CppSettings.defaultCompilerPath := Null; CppSettings.defaultCStandard := Null;
     CppSettings.defaultCppStandard := Null; CppSettings.defaultIntelliSenseMode := Null;
     CppSettings.defaultConfigurationProvider := Null; CppSettings.defaultBrowsePath := None;
     CppSettings.defaultLimitSymbolsToIncludedHeaders := Null;
     CppSettings.defaultDatabaseFilename := Null |}.

Definition host0 (tbl : list (string * json_value)) : Host :=
  {| platform := "linux"; settings := settings0; providers := [];
     JSON_parse := table_parse tbl; write_ok := true;
     useRecursiveIncludes := true; rootBasename := "proj" |}.

Definition state0 (j : js ConfigurationJson) (idx : Z) (incomplete : bool) : CppProperties :=
  {| propertiesFile := Some "/proj/.vscode/c_cpp_properties.json";
     configurationJson := j; currentConfigurationIndex := idx;
     configurationIncomplete := incomplete;
     defaultCompilerPath := Val "/usr/bin/gcc"; defaultCStandard := Val "c11";
     defaultCppStandard := Val "c++17"; defaultIncludes := Val [];
     defaultFrameworks := Val []; defaultWindowsSdkVersion := Undef;
     defaultIntelliSenseMode := Val "gcc-x64"; vcpkgIncludes := [];
     vcpkgPathReady := true; shown := []; written := []; fired := [] |}.

Definition old4 : ConfigurationJson := doc ["A"; "B"; "Y"; "X"] 4.
Definition new2 : ConfigurationJson := doc ["Linux"; "X"] 4.
Definition h_remap : Host := host0 [("new", JsonDoc new2)].

Definition empty_doc_text : string := "{configurations: [], version: 4}".
Definition h_empty : Host := host0 [(empty_doc_text, JsonDoc (doc [] 4))].

(** The failure semantics as the claim words it: content that does not
    parse, or parses to a value without configurations, raises after the
    message is shown and leaves the document in place. *)
Definition parse_failure_claimed (h : Host) : Prop :=
  forall st content,
    (JSON_parse h content = None \/ JSON_parse h content = Some JsonNoConfigurations
     \/ exists j, JSON_parse h content = Some (JsonDoc j) /\ configurations j = []) ->
    exists e, parsePropertiesFile h (Some content) st
              = (add_effects [ErrorFailedToParse e] [] [] st, Throw e).

(** C4 (amended): each entry is variable-resolved, split at ";" with empty
    pieces dropped, and each piece equal to "${default}" is replaced in
    place by the settings default (nothing when it is null); pieces are
    concatenated in input order. ["${default}"; "/extra"] with default
    ["/sys/inc"] gives ["/sys/inc"; "/extra"]. *)
Theorem resolveAndSplit_expands_defaults (paths : list string)
    (defaultValue : option (list string)) (e : Environment) :
  resolveAndSplit (Val paths) defaultValue e =
  flat_map (fun entry =>
              flat_map (expand_piece defaultValue)
                       (filter nonempty (split_semicolon (util_resolveVariables entry e))))
           paths
  /\ resolveAndSplit (Val ["${default}"; "/extra"]) (Some ["/sys/inc"]) e = ["/sys/inc"; "/extra"].
Proof.
  split; [apply resolveAndSplit_flat_map|].
  reflexivity.
Qed.

(** C4 (counterexample): an entry holding a ";" becomes two entries. *)
Lemma resolveAndSplit_counterexample :
  resolveAndSplit (Val ["/a;/b"]) None [] = ["/a"; "/b"]
  /\ resolveAndSplit_claimed ["/a;/b"] None [] = ["/a;/b"].
Proof. split; reflexivity. Qed.

(** The 2 to 3 to 4 migration steps, run in this order. *)
Definition migrate_2_to_4 (h : Host) (st : CppProperties) (j : ConfigurationJson)
  : ConfigurationJson :=
  updateToVersion4 h st (updateToVersion3 (platform h) j).

(** C6: running the 2 to 3 and 3 to 4 migration steps a second time on a
    migrated document gives the same document. *)
Theorem migration_idempotent (h : Host) (st : CppProperties) (j : ConfigurationJson) :
  migrate_2_to_4 h st (migrate_2_to_4 h st j) = migrate_2_to_4 h st j.
Proof.
  unfold migrate_2_to_4, updateToVersion4, updateToVersion3. simpl.
  f_equal. rewrite !map_map. apply map_ext. intro c.
  rewrite updateConfigToVersion3_after_4. apply updateConfigToVersion4_idem.
Qed.

(** C2 (counterexample): the empty file is not valid JSON ([JSON.parse]
    throws on it), yet parsePropertiesFile returns without raising and
    without showing an error. *)
Lemma parse_empty_content_counterexample :
  ~ parse_failure_claimed h_empty.
Proof.
  intro H.
  destruct (H (state0 (Val old4) 3 false) "" (or_introl eq_refl)) as [e E].
  vm_compute in E. discriminate.
Qed.

(** C2 (amended): when the content does not parse ([e] = SyntaxError),
    or parses to a value that fails the check [!newJson ||
    !newJson.configurations || newJson.configurations.length === 0]
    ([e] = StructuralError: no truthy configurations, or a configurations
    array of length 0), parsePropertiesFile shows "Failed to parse" and
    rethrows [e] with the document unchanged, unless the content is the
    empty string, where it returns with nothing changed. *)
Theorem parse_failure_keeps_document h st content e :
  (JSON_parse h content = None /\ e = SyntaxError
   \/ JSON_parse h content = Some JsonNoConfigurations /\ e = StructuralError
   \/ JSON_parse h content = Some (JsonUnchecked (Entries [])) /\ e = StructuralError
   \/ exists j, JSON_parse h content = Some (JsonDoc j) /\ configurations j = []
                /\ e = StructuralError) ->
  parsePropertiesFile h (Some content) st =
    (if String.eqb content "" then (st, Ok tt)
     else (add_effects [ErrorFailedToParse e] [] [] st, Throw e))
  /\ configurationJson (fst (parsePropertiesFile h (Some content) st)) = configurationJson st.
Proof.
  intro Hc.
  assert (E : parsePropertiesFile h (Some content) st =
    (if String.eqb content "" then (st, Ok tt)
     else (add_effects [ErrorFailedToParse e] [] [] st, Throw e))).
  { unfold parsePropertiesFile, try_catch, bind, modify, throw, ret.
    destruct (String.eqb content ""); [reflexivity|].
    destruct Hc as [[-> ->] | [[-> ->] | [[-> ->] | (j & -> & Hj & ->)]]];
      [reflexivity|reflexivity|reflexivity|].
    rewrite Hj. reflexivity. }
  split; [exact E|]. rewrite E. destruct (String.eqb content ""); reflexivity.
Qed.

(** C2: the document {configurations: [], version: 4} raises a
    StructuralError and the previous document stays. *)
Lemma parse_failure_keeps_document_witness :
  parsePropertiesFile h_empty (Some empty_doc_text) (state0 (Val old4) 3 false) =
    (add_effects [ErrorFailedToParse StructuralError] [] [] (state0 (Val old4) 3 false),
     Throw StructuralError)
  /\ configurationJson (fst (parsePropertiesFile h_empty (Some empty_doc_text)
                                                  (state0 (Val old4) 3 false))) = Val old4.
Proof.
  destruct (parse_failure_keeps_document h_empty (state0 (Val old4) 3 false) empty_doc_text
              StructuralError
              (or_intror (or_intror (or_intror
                 (ex_intro _ (doc [] 4) (conj eq_refl (conj eq_refl eq_refl)))))))
    as [E J].
  split; [exact E | exact J].
Defined.




(** C10: after defaulting is complete, a successful re-parse selects the
    first entry of the new list that has the name of the previously
    selected configuration. *)
Theorem parse_keeps_selection_by_name h st content newJson old cur i c :
  content <> "" -> JSON_parse h content = Some (JsonDoc newJson) ->
  configurationIncomplete st = false -> configurationJson st = Val old ->
  nth_Z (configurations old) (currentConfigurationIndex st) = Some cur ->
  nth_error (configurations newJson) i = Some c -> name c = name cur ->
  (forall k c', (k < i)%nat -> nth_error (configurations newJson) k = Some c' -> name c' <> name cur) ->
  exists st', parsePropertiesFile h (Some content) st = (st', Ok tt)
              /\ currentConfigurationIndex st' = Z.of_nat i.
Proof.
  intros Hne Hp Hinc Hold Hcur Hi Hn Hb.
  assert (Hcs : configurations newJson <> []) by (intro E; rewrite E in Hi; destruct i; discriminate).
  assert (F : find_index (fun c => String.eqb (name c) (name cur)) (configurations newJson) = Some i).
  { apply (find_index_first _ _ i c Hi); [apply String.eqb_eq, Hn|].
    intros k c' Hk Hk'. apply String.eqb_neq, (Hb k c' Hk Hk'). }
  assert (R : remap_index st newJson = Some (Z.of_nat i)).
  { unfold remap_index. rewrite Hinc, Hold, (nth_Z_in_range _ _ _ Hcur), Hcur, F. reflexivity. }
  assert (Fi : final_index h st newJson = Z.of_nat i).
  { unfold final_index. rewrite R.
    assert (L : (i < length (configurations newJson))%nat) by (apply nth_error_Some; congruence).
    replace (index_out_of_range _ _) with false; [reflexivity|].
    symmetry. apply index_out_of_range_false. lia. }
  rewrite parsePropertiesFile_success with (newJson := newJson) by assumption.
  destruct (fixUpDocument_spec h newJson
              (set_index (final_index h st newJson) (set_json (Val newJson) st)))
    as (sf & Ef & If & _).
  exists sf. split; [exact Ef|]. rewrite If. exact Fi.
Qed.

(** C10: "X" at index 3 of ["A"; "B"; "Y"; "X"] is found at index 1 of
    ["Linux"; "X"]. *)
Lemma parse_keeps_selection_by_name_witness :
  exists st', parsePropertiesFile h_remap (Some "new") (state0 (Val old4) 3 false) = (st', Ok tt)
              /\ currentConfigurationIndex st' = 1.
Proof.
  apply (parse_keeps_selection_by_name h_remap (state0 (Val old4) 3 false) "new" new2 old4
           (named_config "X") 1 (named_config "X")).
  - discriminate.
  - reflexivity.
  - reflexivity.
  - reflexivity.
  - reflexivity.
  - reflexivity.
  - reflexivity.
  - intros k c' Hk Hc'. destruct k as [|k]; [|lia].
    injection Hc' as <-. discriminate.
Defined.

End ConfigurationClaims.

(** * Further properties of the provider registry *)
Module ProviderExtrasFacts.
Import CustomProviders CustomProvidersFacts.

Lemma valid_getId p v :
  isValid (mkWrapper p v) = true -> getId p = (wextensionId (mkWrapper p v), []).
Proof.
  unfold isValid, mkWrapper, wextensionId, getId. cbn [provider _version].
  destruct (truthy_str (name p)) eqn:Hn, (truthy_str (extensionId p)) eqn:He,
           (has_canProvideConfiguration p), (has_provideConfigurations p);
    cbn; try discriminate;
  destruct v as [|[|v]]; cbn; try reflexivity;
  destruct (has_dispose p); cbn; discriminate.
Qed.

Lemma map_has_set_same m k w : map_has (map_set m k w) k = true.
Proof. unfold map_has. rewrite map_get_set_same. reflexivity. Qed.

Lemma map_get_none_has m k : map_has m k = false -> map_get m k = None.
Proof. unfold map_has. destruct (map_get m k); [discriminate | reflexivity]. Qed.

Lemma map_delete_set_fresh m k w :
  map_get m k = None -> map_delete (map_set m k w) k = m.
Proof.
  induction m as [|[k' w'] m IH]; simpl; intro H.
  - destruct k; simpl; try rewrite String.eqb_refl; reflexivity.
  - destruct (js_str_eqb k' k) eqn:E; [discriminate|]. simpl. rewrite E, IH by exact H. reflexivity.
Qed.

Lemma map_set_length m k w :
  length (map_set m k w) = (length m + if map_has m k then 0 else 1)%nat.
Proof.
  unfold map_has. induction m as [|[k' w'] m IH]; simpl; [reflexivity|].
  destruct (js_str_eqb k' k); simpl; [lia|]. rewrite IH. reflexivity.
Qed.

Lemma add_cases e m p v b m' l :
  add e m p v = (b, m', l) ->
  (b = false /\ m' = m)
  \/ (b = true /\ e <> "Disabled" /\ isValid (mkWrapper p v) = true
      /\ m' = map_set m (wextensionId (mkWrapper p v)) (mkWrapper p v) /\ l = []).
Proof.
  unfold add. destruct (String.eqb e "Disabled") eqn:D.
  - intro H; injection H as <- <- _. left; auto.
  - destruct (isValid (mkWrapper p v)) eqn:V; cbn.
    + match goal with |- context [if negb ?x then _ else _] => destruct x end; cbn;
        intro H; injection H as <- <- <-; [left; auto|right].
      apply String.eqb_neq in D. auto.
    + intro H; injection H as <- <- _. left; auto.
Qed.

Lemma in_checkId_found m x w :
  In w (snd (checkId_loop m x)) -> In w (map snd m).
Proof.
  rewrite checkId_loop_spec. cbn [snd]. intro H. apply filter_In in H. apply H.
Qed.

Lemma checkId_result m x :
  fst (checkId m x) = x \/ exists w, In w (map snd m) /\ fst (checkId m x) = wextensionId w.
Proof.
  unfold checkId. destruct (truthy_str x); cbn [negb]; [|left; reflexivity].
  destruct (checkId_loop m x) as [[|] found] eqn:L; [left; reflexivity|].
  destruct found as [|w [|w' found']]; try (left; reflexivity).
  right. exists w. split; [|reflexivity].
  apply (in_checkId_found m x). rewrite L. left. reflexivity.
Qed.

Lemma checkId_registered m w :
  In w (map snd m) -> fst (checkId m (wextensionId w)) = wextensionId w.
Proof.
  intro Hin. unfold checkId. destruct (truthy_str (wextensionId w)); cbn [negb]; [|reflexivity].
  rewrite checkId_loop_spec.
  replace (existsb _ m) with true; [reflexivity|].
  symmetry. apply existsb_exists. apply in_map_iff in Hin as ([k w0] & <- & Hk).
  exists (k, w0). split; [exact Hk|]. apply js_str_eqb_eq. reflexivity.
Qed.

Lemma map_get_not_in (m : Registry) k : ~ In k (map fst m) -> map_get m k = None.
Proof.
  induction m as [|[k' w'] m IH]; simpl; intro H; [reflexivity|].
  destruct (js_str_eqb k' k) eqn:E.
  - apply js_str_eqb_eq in E. subst. exfalso. apply H. left. reflexivity.
  - apply IH. intro C. apply H. right. exact C.
Qed.

Lemma map_set_keys m k w :
  NoDup (map fst m) -> NoDup (map fst (map_set m k w)).
Proof.
  induction m as [|[k' w'] m IH]; simpl; intro H.
  - constructor; [intros []|constructor].
  - inversion H as [|x l Hn Hd]; subst.
    destruct (js_str_eqb k' k) eqn:E; simpl; [exact H|].
    constructor; [|apply IH, Hd].
    intro C. apply Hn. clear -C E.
    induction m as [|[k2 w2] m IH]; simpl in *.
    + destruct C as [C|[]]. subst. rewrite (proj2 (js_str_eqb_eq _ _) eq_refl) in E. discriminate.
    + destruct (js_str_eqb k2 k); simpl in C; [exact C|].
      destruct C as [C|C]; [left; exact C|right; apply IH, C].
Qed.

Lemma map_delete_keys m k :
  NoDup (map fst m) -> NoDup (map fst (map_delete m k)) /\ ~ In k (map fst (map_delete m k)).
Proof.
  induction m as [|[k' w'] m IH]; simpl; intro H.
  - split; [constructor | intros []].
  - inversion H as [|x l Hn Hd]; subst.
    destruct (js_str_eqb k' k) eqn:E.
    + apply js_str_eqb_eq in E. subst. split; assumption.
    + destruct (IH Hd) as [IH1 IH2]. simpl. split.
      * constructor; [|exact IH1].
        intro C. apply Hn. clear -C. induction m as [|[k2 w2] m IH]; simpl in *; [exact C|].
        destruct (js_str_eqb k2 k); [right; exact C|].
        simpl in C. destruct C as [C|C]; [left; exact C|right; apply IH, C].
      * intros [C|C]; [subst; rewrite (proj2 (js_str_eqb_eq _ _) eq_refl) in E; discriminate|].
        exact (IH2 C).
Qed.

Lemma reachable_keys m : reachable m -> NoDup (map fst m).
Proof.
  induction 1 as [|e m p v _ IH|m p _ IH].
  - constructor.
  - unfold add. destruct (String.eqb e "Disabled"); [exact IH|].
    destruct (negb (isValid (mkWrapper p v))); [exact IH|].
    match goal with |- context [if negb ?b then _ else _] => destruct b end;
      simpl; [exact IH | apply map_set_keys, IH].
  - unfold remove. destruct (getId p) as [id l].
    destruct (map_has m id); simpl; [apply map_delete_keys, IH | exact IH].
Qed.

End ProviderExtrasFacts.

(** * Further properties of the reconciliation *)
Module ConfigurationExtrasFacts.
Import Configurations ConfigurationsFacts ReconcileFacts.
Open Scope Z_scope.

Lemma platform_index_default p :
  platform_index (platName p) (configurations (getDefaultCppProperties p)) = 0.
Proof. unfold platform_index. cbn. rewrite String.eqb_refl. reflexivity. Qed.

Lemma reset_state h b st :
  resetToDefaultSettings h b st =
  (set_incomplete true (set_index 0 (set_json (Val (getDefaultCppProperties (platform h))) st)),
   Ok tt).
Proof.
  unfold resetToDefaultSettings, bind, get, modify, ret. cbn [currentConfigurationIndex set_json].
  destruct (b || index_out_of_range (currentConfigurationIndex st) 1) eqn:E.
  - rewrite getConfigIndexForPlatform_self by reflexivity.
    rewrite platform_index_default. reflexivity.
  - apply orb_false_iff in E as [_ E]. apply index_out_of_range_false in E.
    assert (Hi : currentConfigurationIndex st = 0) by lia.
    destruct st; cbn in *. subst. reflexivity.
Qed.

Lemma applyDefault_cond_false h st :
  configurationIncomplete st = false -> applyDefaultIncludePathsAndFrameworks h st = (st, Ok tt).
Proof.
  intro H. unfold applyDefaultIncludePathsAndFrameworks, bind, get, ret. rewrite H. reflexivity.
Qed.

Lemma bind_eq {A B} (m : M A) (k : A -> M B) s s1 a :
  m s = (s1, Ok a) -> bind m k s = k a s1.
Proof. unfold bind. intros ->. reflexivity. Qed.

Lemma default_assignments_name h st :
  Forall (fun f => forall c, name (f c) = name c) (default_assignments h st).
Proof.
  unfold default_assignments.
  repeat (apply Forall_app; split);
  repeat match goal with |- context [if ?b then _ else _] => destruct b end;
  repeat constructor.
Qed.

Lemma fold_assignments_name (fs : list (Configuration -> Configuration)) c :
  Forall (fun f => forall c, name (f c) = name c) fs ->
  name (fold_left (fun c f => f c) fs c) = name c.
Proof.
  revert c. induction fs as [|f fs IH]; intros c H; [reflexivity|].
  inversion H as [|x l Hf Hfs]; subst. cbn. rewrite IH by exact Hfs. apply Hf.
Qed.

Lemma update_nth_other {A} (l : list A) n f k :
  k <> n -> nth_error (update_nth l n f) k = nth_error l k.
Proof.
  revert n k. induction l as [|x l IH]; intros [|n] [|k] H; cbn; auto; try lia.
  all: apply IH; lia.
Qed.

Lemma update_nth_map {A B} (g : A -> B) (l : list A) n f :
  (forall x, g (f x) = g x) -> map g (update_nth l n f) = map g l.
Proof.
  intro H. revert n. induction l as [|x l IH]; intros [|n]; cbn; rewrite ?H, ?IH; reflexivity.
Qed.

Lemma applyDefault_shape h st st' u j :
  applyDefaultIncludePathsAndFrameworks h st = (st', Ok u) -> configurationJson st = Val j ->
  exists j', configurationJson st' = Val j'
    /\ env j' = env j /\ version j' = version j
    /\ map name (configurations j') = map name (configurations j)
    /\ forall k, k <> Z.to_nat (currentConfigurationIndex st) ->
       nth_error (configurations j') k = nth_error (configurations j) k.
Proof.
  intros H Hj. revert H.
  unfold applyDefaultIncludePathsAndFrameworks, bind, get, modify, ret, throw.
  destruct (_ && _ && _ && _).
  - rewrite Hj. destruct (default_assignments h st) as [|f fs] eqn:D.
    + intro H; injection H as <- _. exists j. cbn. rewrite Hj. auto 6.
    + destruct (nth_Z _ _); [|discriminate].
      intro H; injection H as <- _. eexists. split; [reflexivity|]. cbn.
      split; [reflexivity|]. split; [reflexivity|]. split.
      * apply update_nth_map. intro x.
        change (name (fold_left (fun c f => f c) (f :: fs) x) = name x).
        apply fold_assignments_name.
        rewrite <- D. apply default_assignments_name.
      * intros k Hk. apply update_nth_other, Hk.
  - intro H; injection H as <- _. exists j. auto 6.
Qed.

Lemma parse_throw_shows h rr st st' e :
  parsePropertiesFile h rr st = (st', Throw e) ->
  exists s0, st' = add_effects [ErrorFailedToParse e] [] [] s0.
Proof.
  unfold parsePropertiesFile, try_catch.
  match goal with |- context [let '(_, _) := ?m st in _] =>
    destruct (m st) as [s0 [a|e0|]] end;
  [discriminate | | discriminate].
  unfold bind, modify, throw. intro H; injection H as <- <-. eauto.
Qed.

Lemma applyDefault_ok h st j c :
  configurationJson st = Val j -> nth_Z (configurations j) (currentConfigurationIndex st) = Some c ->
  exists s', applyDefaultIncludePathsAndFrameworks h st = (s', Ok tt).
Proof.
  intros Hj Hc. unfold applyDefaultIncludePathsAndFrameworks, bind, get, modify, ret.
  destruct (_ && _ && _ && _); [|eauto].
  rewrite Hj, Hc. destruct (default_assignments h st); eauto.
Qed.

Lemma updateServer_ok h st j :
  configurationJson st = Val j ->
  exists s' j', updateServerOnFolderSettingsChange h st = (s', Ok tt)
    /\ configurationJson s' = Val j' /\ map name (configurations j') = map name (configurations j)
    /\ currentConfigurationIndex s' = currentConfigurationIndex st.
Proof.
  intro Hj. unfold updateServerOnFolderSettingsChange, bind, get, modify, ret. rewrite Hj.
  cbn [configurationIncomplete add_effects set_json].
  destruct (negb (configurationIncomplete st)); (do 2 eexists);
    (split; [reflexivity|]); cbn; (split; [reflexivity|]).
  all: split; [cbn [configurations]; rewrite map_map; reflexivity | reflexivity].
Qed.

Lemma fixUpDocument_eq h newJson s :
  fixUpDocument h newJson s =
  let s0 := set_incomplete false s in
  let '(dirty, j, msgs) :=
    if negb (js_Z_eqb (version newJson) (Val configVersion))
    then let '(j', m) := migrate h s0 (fixed_document h newJson) in (true, j', m)
    else (existsb (fun c => negb (js_str_eqb (corrected_provider h c) (configurationProvider c)))
                  (configurations newJson), fixed_document h newJson, []) in
  let s1 := add_effects msgs [] [] (set_json (Val j) s0) in
  (if dirty then
     if write_ok h then add_effects [] [j] [] s1 else add_effects [WarningWriteFailed] [] [] s1
   else s1, Ok tt).
Proof.
  unfold fixUpDocument, bind, get, modify, ret. cbn [version].
  destruct (negb _).
  - destruct (migrate _ _ _) as [j' m]. destruct (write_ok h); reflexivity.
  - destruct (existsb _ _); [destruct (write_ok h)|]; reflexivity.
Qed.

Lemma names_v3 p cs : map name (map (updateConfigToVersion3 p) cs) = map name cs.
Proof. rewrite map_map. apply map_ext. intro c. apply updateConfigToVersion3_done. Qed.

Lemma names_v4 h s cs : map name (map (updateConfigToVersion4 h s) cs) = map name cs.
Proof. rewrite map_map. apply map_ext. intro c. apply updateConfigToVersion4_keeps. Qed.

Lemma migrate_shape h s j :
  version (fst (migrate h s j)) = Val 4
  /\ env (fst (migrate h s j)) = env j
  /\ map name (configurations (fst (migrate h s j))) = map name (configurations j).
Proof.
  unfold migrate.
  destruct (is_undefined (version j)); cbn;
  repeat match goal with |- context [if ?b then _ else _] => destruct b end;
  cbn; (split; [reflexivity|]); (split; [reflexivity|]);
  rewrite ?names_v4, ?names_v3; reflexivity.
Qed.

Lemma remove_disallowed_spec e kv :
  remove_disallowed e = Val kv -> forall p, In p kv -> ~ In (fst p) disallowed_env_keys.
Proof.
  unfold remove_disallowed. destruct e as [| |kv0]; try discriminate. intro H; injection H as <-.
  intros p Hp Hin. apply filter_In in Hp as [_ Hp].
  cbv beta in Hp. apply negb_true_iff in Hp.
  assert (E : existsb (String.eqb (fst p)) disallowed_env_keys = true).
  { apply existsb_exists. exists (fst p). split; [exact Hin | apply String.eqb_refl]. }
  unfold disallowed_env_keys in E; cbn [existsb] in E. congruence.
Qed.

Lemma js_Z_eqb_Val v z : js_Z_eqb v (Val z) = true <-> v = Val z.
Proof.
  destruct v as [| |x]; cbn; split; intro H; try discriminate.
  - apply Z.eqb_eq in H. subst. reflexivity.
  - injection H as ->. apply Z.eqb_refl.
Qed.

Lemma migrate_unknown h s j :
  version j <> Undef -> version j <> Val 2 -> version j <> Val 3 ->
  migrate h s j = ({| configurations := configurations j; env := env j; version := Val 4 |},
                   [ErrorUnknownVersion]).
Proof.
  intros U V2 V3. unfold migrate.
  destruct (is_undefined (version j)) eqn:E;
    [destruct (version j); try discriminate; congruence|].
  destruct (js_Z_eqb (version j) (Val 2)) eqn:E2; [apply js_Z_eqb_Val in E2; congruence|].
  destruct (js_Z_eqb (version j) (Val 3)) eqn:E3; [apply js_Z_eqb_Val in E3; congruence|].
  reflexivity.
Qed.

Lemma lookup_replace w v l k :
  env_lookup (map (fun p => if String.eqb (fst p) w then (fst p, v) else p) l) k =
  if String.eqb k w then (if existsb (fun p => String.eqb (fst p) w) l then Some v else None)
  else env_lookup l k.
Proof.
  induction l as [|[k' x] l IH]; cbn; [destruct (String.eqb k w); reflexivity|].
  destruct (String.eqb k' w) eqn:E1; cbn; rewrite ?E1; cbn.
  - apply String.eqb_eq in E1. subst k'.
    destruct (String.eqb w k) eqn:E2.
    + apply String.eqb_eq in E2. subst. rewrite String.eqb_refl. reflexivity.
    + rewrite IH, (String.eqb_sym k w), E2. reflexivity.
  - destruct (String.eqb k' k) eqn:E2.
    + apply String.eqb_eq in E2. subst. rewrite E1. reflexivity.
    + exact IH.
Qed.

Lemma lookup_append_absent w v l k :
  existsb (fun p => String.eqb (fst p) w) l = false ->
  env_lookup (l ++ [(w, v)])%list k = if String.eqb k w then Some v else env_lookup l k.
Proof.
  induction l as [|[k' x] l IH]; cbn; intro H.
  - rewrite String.eqb_sym. destruct (String.eqb k w); reflexivity.
  - apply orb_false_iff in H as [H1 H2]. rewrite (IH H2).
    destruct (String.eqb k' k) eqn:E.
    + apply String.eqb_eq in E. subst. rewrite H1. reflexivity.
    + reflexivity.
Qed.

Lemma remap_unchecked_result st cs :
  remap_unchecked st cs = Throw TypeError \/ exists oi, remap_unchecked st cs = Ok oi.
Proof.
  assert (L : forall n es i, entries_loop n es i = Throw TypeError
                             \/ exists oi, entries_loop n es i = Ok oi).
  { intros n es. induction es as [|[c| |] es IH]; intro i; cbn [entries_loop].
    - eauto.
    - destruct (String.eqb (name c) n); [eauto | apply IH].
    - left; reflexivity.
    - apply IH. }
  unfold remap_unchecked.
  destruct (negb (configurationIncomplete st)); [|eauto].
  destruct (configurationJson st) as [| |old]; try eauto.
  destruct (negb _); [|eauto].
  destruct (nth_Z _ _), cs; eauto.
Qed.

End ConfigurationExtrasFacts.

(** * Further properties of the provider registry: statements *)
Module ProviderExtras.
Import CustomProviders CustomProvidersFacts ProviderExtrasFacts.

(** A provider object with every method, named "Foo", id "ext.foo". *)
Definition foo_provider : CustomConfigurationProvider :=
  {| name := Val "Foo"; extensionId := Val "ext.foo";
     has_canProvideConfiguration := true; has_provideConfigurations := true;
     has_canProvideBrowseConfiguration := true; has_provideBrowseConfiguration := true;
     has_dispose := true |}.

(** A second provider object with every method, named "Bar", id "ext.bar". *)
Definition bar_provider : CustomConfigurationProvider :=
  {| name := Val "Bar"; extensionId := Val "ext.bar";
     has_canProvideConfiguration := true; has_provideConfigurations := true;
     has_canProvideBrowseConfiguration := true; has_provideBrowseConfiguration := true;
     has_dispose := true |}.

(** A provider object with an extensionId but no dispose method. *)
Definition no_dispose_provider : CustomConfigurationProvider :=
  {| name := Val "Baz"; extensionId := Val "ext.baz";
     has_canProvideConfiguration := true; has_provideConfigurations := true;
     has_canProvideBrowseConfiguration := false; has_provideBrowseConfiguration := false;
     has_dispose := false |}.

(** The collection after registering [foo_provider] at v1. *)
Definition reg_foo : Registry := snd (fst (add "Default" [] foo_provider v1)).

(** A provider that add accepted is what get returns for the same
    provider object, with no console output. *)
Theorem add_then_get e m p v m' l :
  add e m p v = (true, m', l) -> get m' (ByObject p) = (Some (mkWrapper p v), []).
Proof.
  intro H. apply add_cases in H as [[D _]|(_ & _ & V & -> & _)]; [discriminate|].
  unfold get, getId_ref. rewrite (valid_getId p v V).
  rewrite map_has_set_same, map_get_set_same. reflexivity.
Qed.

Lemma add_then_get_witness :
  add "Default" [] foo_provider v1 = (true, reg_foo, [])
  /\ get reg_foo (ByObject foo_provider) = (Some (mkWrapper foo_provider v1), []).
Proof.
  assert (H : add "Default" [] foo_provider v1 = (true, reg_foo, [])) by reflexivity.
  exact (conj H (add_then_get "Default" [] foo_provider v1 reg_foo [] H)).
Defined.

(** Adding a valid provider under a fresh identity and removing it again
    gives back the original collection, silently. *)
Theorem add_then_remove_restores e m p v :
  e <> "Disabled" -> isValid (mkWrapper p v) = true ->
  map_has m (wextensionId (mkWrapper p v)) = false ->
  exists m', add e m p v = (true, m', []) /\ remove m' p = (m, []).
Proof.
  intros D V F. exists (map_set m (wextensionId (mkWrapper p v)) (mkWrapper p v)).
  unfold add. apply String.eqb_neq in D. rewrite D, V, F. split; [reflexivity|].
  unfold remove. rewrite (valid_getId p v V), map_has_set_same.
  rewrite map_delete_set_fresh by (apply map_get_none_has, F). reflexivity.
Qed.

Lemma add_then_remove_restores_witness :
  exists m', add "Default" reg_foo bar_provider v2 = (true, m', [])
             /\ remove m' bar_provider = (reg_foo, []).
Proof.
  assert (D : "Default" <> "Disabled") by discriminate.
  assert (V : isValid (mkWrapper bar_provider v2) = true) by reflexivity.
  assert (F : map_has reg_foo (wextensionId (mkWrapper bar_provider v2)) = false) by reflexivity.
  exact (add_then_remove_restores "Default" reg_foo bar_provider v2 D V F).
Defined.

(** add grows the collection by one for a fresh identity, keeps its size
    when it replaces an existing entry, and leaves it unchanged when it
    returns false. *)
Theorem add_size e m p v b m' l :
  add e m p v = (b, m', l) ->
  if b then size m' = (size m + if map_has m (wextensionId (mkWrapper p v)) then 0 else 1)%nat
  else m' = m.
Proof.
  intro H. apply add_cases in H as [[-> ->]|(-> & _ & _ & -> & _)]; [reflexivity|].
  apply map_set_length.
Qed.

Lemma add_size_witness :
  add "Default" reg_foo bar_provider v1
    = (true, snd (fst (add "Default" reg_foo bar_provider v1)), [])
  /\ size (snd (fst (add "Default" reg_foo bar_provider v1))) = 2%nat.
Proof.
  assert (H : add "Default" reg_foo bar_provider v1
              = (true, snd (fst (add "Default" reg_foo bar_provider v1)), [])) by reflexivity.
  exact (conj H (add_size "Default" reg_foo bar_provider v1 true _ [] H)).
Defined.

(** checkId is idempotent: checking the id it returned returns it again. *)
Theorem checkId_idempotent m x :
  fst (checkId m (fst (checkId m x))) = fst (checkId m x).
Proof.
  destruct (checkId_result m x) as [E | (w & Hin & E)]; rewrite E.
  - exact E.
  - apply checkId_registered, Hin.
Qed.

(** Unless a v0 provider carries an extensionId, logProblems lists no
    missing property exactly when the wrapper is valid. *)
Theorem logProblems_matches_isValid p v :
  (v <> v0 \/ truthy_str (extensionId p) = false) ->
  (logProblems p v = [] <-> isValid (mkWrapper p v) = true).
Proof.
  intro Hv. unfold logProblems, isValid, mkWrapper. cbn [provider _version].
  destruct (truthy_str (extensionId p)) eqn:He.
  - destruct Hv as [Hv|]; [|discriminate].
    destruct v as [|[|v]]; [exfalso; apply Hv; reflexivity| |];
    destruct (truthy_str (name p)), (has_canProvideConfiguration p), (has_provideConfigurations p),
             (has_dispose p), (has_canProvideBrowseConfiguration p),
             (has_provideBrowseConfiguration p); cbn; split; intro H;
      try discriminate; reflexivity.
  - destruct v as [|[|v]];
    destruct (truthy_str (name p)), (has_canProvideConfiguration p), (has_provideConfigurations p),
             (has_dispose p), (has_canProvideBrowseConfiguration p),
             (has_provideBrowseConfiguration p); cbn; split; intro H;
      try discriminate; reflexivity.
Qed.

Lemma logProblems_matches_isValid_witness :
  logProblems no_dispose_provider v1 = ["'dispose'"]
  /\ (logProblems no_dispose_provider v1 = [] <-> isValid (mkWrapper no_dispose_provider v1) = true).
Proof.
  assert (Hv : v1 <> v0 \/ truthy_str (extensionId no_dispose_provider) = false)
    by (left; discriminate).
  split; [reflexivity|].
  exact (logProblems_matches_isValid no_dispose_provider v1 Hv).
Defined.

(** A v0 provider with an extensionId is promoted to v1 and needs dispose:
    without it add rejects it while logProblems, which checks the declared
    v0, lists nothing missing. *)
Theorem promoted_missing_dispose_unreported e m p :
  e <> "Disabled" -> truthy_str (extensionId p) = true ->
  (logProblems p v0 = [] /\ isValid (mkWrapper p v0) = false
   <-> truthy_str (name p) && has_canProvideConfiguration p && has_provideConfigurations p
       && negb (has_dispose p) = true)
  /\ (has_dispose p = false -> add e m p v0 = (false, m, [ErrMissingProperties])).
Proof.
  intros D He. split.
  - unfold logProblems, isValid, mkWrapper. cbn [provider _version]. rewrite He.
    destruct (truthy_str (name p)), (has_canProvideConfiguration p), (has_provideConfigurations p),
             (has_dispose p); cbn; split; intro H;
      try (destruct H; discriminate); try discriminate; auto.
  - intro Hd. unfold add. apply String.eqb_neq in D. rewrite D.
    replace (isValid (mkWrapper p v0)) with false; [reflexivity|].
    unfold isValid, mkWrapper. cbn [provider _version]. rewrite He, Hd.
    destruct (truthy_str (name p)), (has_canProvideConfiguration p), (has_provideConfigurations p);
      reflexivity.
Qed.

Lemma promoted_missing_dispose_unreported_witness :
  logProblems no_dispose_provider v0 = []
  /\ add "Default" reg_foo no_dispose_provider v0 = (false, reg_foo, [ErrMissingProperties]).
Proof.
  assert (D : "Default" <> "Disabled") by discriminate.
  assert (He : truthy_str (extensionId no_dispose_provider) = true) by reflexivity.
  assert (Hd : has_dispose no_dispose_provider = false) by reflexivity.
  destruct (promoted_missing_dispose_unreported "Default" reg_foo no_dispose_provider D He)
    as [_ A].
  exact (conj eq_refl (A Hd)).
Defined.



(** On a registry built by add and remove, get finds nothing for a
    provider right after it has been removed. *)
Theorem remove_then_get m p :
  reachable m -> fst (get (fst (remove m p)) (ByObject p)) = None.
Proof.
  intro R. apply reachable_keys in R.
  unfold remove, get, getId_ref. destruct (getId p) as [id l].
  destruct (map_has m id) eqn:Hh; cbn [fst].
  - rewrite (map_get_not_in _ _ (proj2 (map_delete_keys m id R))).
    unfold map_has. rewrite (map_get_not_in _ _ (proj2 (map_delete_keys m id R))). reflexivity.
  - rewrite Hh. reflexivity.
Qed.

Lemma remove_then_get_witness :
  fst (get (fst (remove reg_foo foo_provider)) (ByObject foo_provider)) = None
  /\ fst (get reg_foo (ByObject foo_provider)) <> None.
Proof.
  assert (R : reachable reg_foo) by (apply reach_add, reach_empty).
  split; [exact (remove_then_get reg_foo foo_provider R) | discriminate].
Defined.

End ProviderExtras.

(** * Further properties of the reconciliation: statements *)
Module ConfigurationExtras.
Import Configurations ConfigurationsFacts ReconcileFacts ConfigurationExtrasFacts.
Open Scope Z_scope.

(** A configuration named [n] with all properties undefined. *)
Definition bare_config (n : string) : Configuration :=
  {| name := n; compilerPath := Undef; cStandard := Undef;
     cppStandard := Undef; includePath := Undef; macFrameworkPath := Undef;
     windowsSdkVersion := Undef; defines := Undef; intelliSenseMode := Undef;
     compileCommands := Undef; forcedInclude := Undef;
     configurationProvider := Undef; browse := Undef |}.

(** A configuration named "Linux" with an include path and an empty cStandard. *)
Definition linux_config : Configuration :=
  {| name := "Linux"; compilerPath := Undef; cStandard := Val "";
     cppStandard := Undef; includePath := Val ["/usr/include"]; macFrameworkPath := Undef;
     windowsSdkVersion := Undef; defines := Undef; intelliSenseMode := Undef;
     compileCommands := Undef; forcedInclude := Undef;
     configurationProvider := Undef; browse := Undef |}.

Definition doc_v (ns : list string) (v : js Z) (e : js Environment) : ConfigurationJson :=
  {| configurations := map bare_config ns; env := e; version := v |}.

Definition sample_env : Environment :=
  [("workspaceRoot", EnvStr "/r"); ("arch", EnvStr "x64")].

Definition plain_settings : CppSettings.Settings :=
  {| CppSettings.defaultIncludePath := None; CppSettings.defaultDefines := None;
     CppSettings.defaultMacFrameworkPath := None; CppSettings.defaultWindowsSdkVersion := Null;
     CppSettings.defaultForcedInclude := None; CppSettings.defaultCompileCommands := Null;
     CppSettings.defaultCompilerPath := Null; CppSettings.defaultCStandard := Null;
     CppSettings.defaultCppStandard := Null; CppSettings.defaultIntelliSenseMode := Null;
     CppSettings.defaultConfigurationProvider := Null; CppSettings.defaultBrowsePath := None;
     CppSettings.defaultLimitSymbolsToIncludedHeaders := Null;
     CppSettings.defaultDatabaseFilename := Null |}.

(** A Linux host whose JSON.parse knows the texts of [files]. *)
Definition host_files (files : list (string * json_value)) (writable : bool) : Host :=
  {| platform := "linux"; settings := plain_settings; providers := [];
     JSON_parse := fun s => option_map snd (find (fun p => String.eqb (fst p) s) files);
     write_ok := writable; useRecursiveIncludes := false; rootBasename := "proj" |}.

Definition sample_files : list (string * json_value) :=
  [("v2", JsonDoc (doc_v ["Linux"; "Mac"] (Val 2) (Val sample_env)));
   ("v7", JsonDoc (doc_v ["Linux"] (Val 7) Undef));
   ("v4", JsonDoc (doc_v ["Win32"; "Linux"] (Val 4) (Val sample_env)));
   ("{configurations: 5}", JsonUnchecked NoLength)].

Definition sample_host : Host := host_files sample_files true.

Definition readonly_host : Host := host_files sample_files false.

(** A state holding [j] with index [idx]. *)
Definition held_state (file : option string) (j : js ConfigurationJson) (idx : Z)
    (incomplete : bool) : CppProperties :=
  {| propertiesFile := file; configurationJson := j; currentConfigurationIndex := idx;
     configurationIncomplete := incomplete;
     defaultCompilerPath := Val "/usr/bin/gcc"; defaultCStandard := Val "c11";
     defaultCppStandard := Val "c++17"; defaultIncludes := Val [];
     defaultFrameworks := Val []; defaultWindowsSdkVersion := Undef;
     defaultIntelliSenseMode := Val "gcc-x64"; vcpkgIncludes := [];
     vcpkgPathReady := true; shown := []; written := []; fired := [] |}.

Definition props_file : option string := Some "/proj/.vscode/c_cpp_properties.json".

Definition three_configs : ConfigurationJson := doc_v ["Win32"; "Mac"; "Linux"] (Val 4) Undef.



(** resetToDefaultSettings, with or without resetIndex, installs the
    default document, selects index 0 and marks defaulting incomplete. *)
Theorem resetToDefaultSettings_state h b st :
  resetToDefaultSettings h b st =
  (set_incomplete true (set_index 0 (set_json (Val (getDefaultCppProperties (platform h))) st)),
   Ok tt).
Proof. apply reset_state. Qed.

(** applyDefaultIncludePathsAndFrameworks is idempotent: after one
    successful run a second run changes nothing. *)
Theorem applyDefault_twice h st st1 u :
  applyDefaultIncludePathsAndFrameworks h st = (st1, Ok u) ->
  applyDefaultIncludePathsAndFrameworks h st1 = (st1, Ok tt).
Proof.
  unfold applyDefaultIncludePathsAndFrameworks at 1, bind, get, modify, ret, throw.
  destruct (_ && _ && _ && _) eqn:C.
  - destruct (configurationJson st) as [| |j]; try discriminate.
    destruct (default_assignments h st) as [|f fs].
    + intro H; injection H as <- _. apply applyDefault_cond_false. reflexivity.
    + destruct (nth_Z _ _); [|discriminate].
      intro H; injection H as <- _. apply applyDefault_cond_false. reflexivity.
  - intro H; injection H as <- _.
    unfold applyDefaultIncludePathsAndFrameworks, bind, get, ret. rewrite C. reflexivity.
Qed.

Lemma applyDefault_twice_witness :
  let st := held_state props_file (Val three_configs) 2 true in
  let st1 := fst (applyDefaultIncludePathsAndFrameworks sample_host st) in
  applyDefaultIncludePathsAndFrameworks sample_host st = (st1, Ok tt)
  /\ applyDefaultIncludePathsAndFrameworks sample_host st1 = (st1, Ok tt).
Proof.
  intros st st1.
  assert (H : applyDefaultIncludePathsAndFrameworks sample_host st = (st1, Ok tt))
    by (vm_compute; reflexivity).
  exact (conj H (applyDefault_twice sample_host st st1 tt H)).
Defined.

(** applyDefaultIncludePathsAndFrameworks only changes the current
    configuration: names, the other configurations, env and version are
    kept. *)
Theorem applyDefault_only_current h st st' u j :
  applyDefaultIncludePathsAndFrameworks h st = (st', Ok u) -> configurationJson st = Val j ->
  exists j', configurationJson st' = Val j'
    /\ env j' = env j /\ version j' = version j
    /\ map name (configurations j') = map name (configurations j)
    /\ forall k, k <> Z.to_nat (currentConfigurationIndex st) ->
       nth_error (configurations j') k = nth_error (configurations j) k.
Proof. apply applyDefault_shape. Qed.

Lemma applyDefault_only_current_witness :
  let st := held_state props_file (Val three_configs) 2 true in
  let st1 := fst (applyDefaultIncludePathsAndFrameworks sample_host st) in
  applyDefaultIncludePathsAndFrameworks sample_host st = (st1, Ok tt)
  /\ exists j', configurationJson st1 = Val j'
    /\ env j' = env three_configs /\ version j' = version three_configs
    /\ map name (configurations j') = map name (configurations three_configs)
    /\ forall k, k <> Z.to_nat (currentConfigurationIndex st) ->
       nth_error (configurations j') k = nth_error (configurations three_configs) k.
Proof.
  intros st st1.
  assert (H : applyDefaultIncludePathsAndFrameworks sample_host st = (st1, Ok tt))
    by (vm_compute; reflexivity).
  assert (Hj : configurationJson st = Val three_configs) by reflexivity.
  exact (conj H (applyDefault_only_current sample_host st st1 tt three_configs H Hj)).
Defined.

(** When parsing the properties file throws [e], handleConfigurationChange
    rethrows [e] and ends in the state parsePropertiesFile left, whose last
    message is the "Failed to parse" error for [e]: no index repair, no
    defaults applied, no server update. *)
Theorem handle_parse_failure h rr st e :
  propertiesFile st <> None -> snd (parsePropertiesFile h rr st) = Throw e ->
  exists s0,
    parsePropertiesFile h rr st = (add_effects [ErrorFailedToParse e] [] [] s0, Throw e)
    /\ handleConfigurationChange h rr st = (add_effects [ErrorFailedToParse e] [] [] s0, Throw e).
Proof.
  intros Pf Hs. destruct (parsePropertiesFile h rr st) as [s1 r] eqn:Hp. cbn in Hs. subst r.
  destruct (parse_throw_shows h rr st s1 e Hp) as [s0 ->].
  exists s0. split; [reflexivity|].
  unfold handleConfigurationChange, bind at 1, get at 1.
  destruct (propertiesFile st) as [p|]; [|congruence].
  unfold bind at 1 2 3. rewrite Hp. reflexivity.
Qed.

Lemma handle_parse_failure_witness :
  let st := held_state props_file (Val three_configs) 0 false in
  exists s0,
    parsePropertiesFile sample_host (Some "{ not json") st
      = (add_effects [ErrorFailedToParse SyntaxError] [] [] s0, Throw SyntaxError)
    /\ handleConfigurationChange sample_host (Some "{ not json") st
      = (add_effects [ErrorFailedToParse SyntaxError] [] [] s0, Throw SyntaxError).
Proof.
  intros st.
  assert (Pf : propertiesFile st <> None) by discriminate.
  assert (Hs : snd (parsePropertiesFile sample_host (Some "{ not json") st) = Throw SyntaxError)
    by (vm_compute; reflexivity).
  exact (handle_parse_failure sample_host (Some "{ not json") st SyntaxError Pf Hs).
Defined.

(** Without a properties file, onDidChangeSettings succeeds and leaves
    the default document for the platform, with index 0 selected. *)
Theorem onDidChangeSettings_no_file h rr st :
  propertiesFile st = None ->
  exists st' j', onDidChangeSettings h rr st = (st', Ok tt)
    /\ configurationJson st' = Val j'
    /\ map name (configurations j') = [platName (platform h)]
    /\ currentConfigurationIndex st' = 0.
Proof.
  intro Pf.
  set (sR := set_incomplete true (set_index 0 (set_json (Val (getDefaultCppProperties (platform h))) st))).
  assert (HR : resetToDefaultSettings h true st = (sR, Ok tt)) by apply resetToDefaultSettings_state.
  destruct (applyDefault_ok h sR (getDefaultCppProperties (platform h))
              (getDefaultConfig (platform h)) eq_refl eq_refl) as [sA HA].
  destruct (applyDefault_only_current h sR sA tt _ HA eq_refl) as (jA & JA & _ & _ & NA & _).
  apply applyDefault_keeps in HA as HK. destruct HK as [IA _].
  destruct (updateServer_ok h sA jA JA) as (sU & jU & HU & JU & NU & IU).
  exists sU, jU. split; [|split; [exact JU|split]].
  - unfold onDidChangeSettings. unfold bind at 1, get at 1. rewrite Pf.
    rewrite (bind_eq _ _ _ _ _ HR).
    unfold handleConfigurationChange.
    unfold bind at 1, get at 1. cbn [propertiesFile sR set_incomplete set_index set_json].
    rewrite Pf. unfold bind at 1, ret at 1.
    unfold bind at 1, get at 1. cbn [configurationJson sR set_incomplete set_index set_json is_undefined].
    unfold bind at 1, ret at 1.
    rewrite (bind_eq _ _ _ _ _ HA). exact HU.
  - rewrite NU, NA. reflexivity.
  - rewrite IU, IA. reflexivity.
Qed.

Lemma onDidChangeSettings_no_file_witness :
  exists st' j', onDidChangeSettings sample_host None (held_state None Undef 7 false) = (st', Ok tt)
    /\ configurationJson st' = Val j'
    /\ map name (configurations j') = ["Linux"]
    /\ currentConfigurationIndex st' = 0.
Proof.
  assert (Pf : propertiesFile (held_state None Undef 7 false) = None) by reflexivity.
  exact (onDidChangeSettings_no_file sample_host None _ Pf).
Defined.

(** After a successful parse the held document has version 4, the parsed
    configuration names, no disallowed env variable, and defaulting is
    marked complete. *)
Theorem parse_success_document h st content newJson :
  content <> "" -> JSON_parse h content = Some (JsonDoc newJson) ->
  configurations newJson <> [] ->
  exists st' j', parsePropertiesFile h (Some content) st = (st', Ok tt)
    /\ configurationJson st' = Val j'
    /\ version j' = Val 4
    /\ map name (configurations j') = map name (configurations newJson)
    /\ (forall kv, env j' = Val kv -> forall p, In p kv -> ~ In (fst p) disallowed_env_keys)
    /\ configurationIncomplete st' = false.
Proof.
  intros Hne Hp Hcs.
  rewrite parsePropertiesFile_success with (newJson := newJson) by assumption.
  rewrite fixUpDocument_eq. cbv zeta.
  assert (Nf : map name (configurations (fixed_document h newJson)) = map name (configurations newJson)).
  { cbn. rewrite map_map. reflexivity. }
  destruct (negb (js_Z_eqb (version newJson) (Val configVersion))) eqn:V.
  - destruct (migrate h _ (fixed_document h newJson)) as [j' m] eqn:Mg.
    destruct (migrate_shape h (set_incomplete false
                (set_index (final_index h st newJson) (set_json (Val newJson) st)))
                (fixed_document h newJson)) as (V4 & Ev & Nm).
    rewrite Mg in V4, Ev, Nm. cbn [fst] in V4, Ev, Nm.
    destruct (write_ok h); eexists; exists j'; (split; [reflexivity|]); cbn; (split; [reflexivity|]); (split; [exact V4|]);
      (split; [rewrite Nm; exact Nf|]); (split; [|reflexivity]);
      rewrite Ev; apply remove_disallowed_spec.
  - apply negb_false_iff in V.
    destruct (existsb _ _); [destruct (write_ok h)|]; eexists; exists (fixed_document h newJson);
      (split; [reflexivity|]); cbn; (split; [reflexivity|]);
      (split; [destruct (version newJson) as [| |z]; try discriminate;
               cbn in V; apply Z.eqb_eq in V; subst; reflexivity|]);
      (split; [rewrite map_map; reflexivity|]); (split; [|reflexivity]);
      apply remove_disallowed_spec.
Qed.

Lemma parse_success_document_witness :
  exists st' j', parsePropertiesFile sample_host (Some "v2") (held_state props_file Undef 0 true)
                 = (st', Ok tt)
    /\ configurationJson st' = Val j'
    /\ version j' = Val 4
    /\ map name (configurations j') = ["Linux"; "Mac"]
    /\ (forall kv, env j' = Val kv -> forall p, In p kv -> ~ In (fst p) disallowed_env_keys)
    /\ configurationIncomplete st' = false.
Proof.
  assert (Hne : "v2" <> "") by discriminate.
  assert (Hp : JSON_parse sample_host "v2"
               = Some (JsonDoc (doc_v ["Linux"; "Mac"] (Val 2) (Val sample_env))))
    by reflexivity.
  assert (Hcs : configurations (doc_v ["Linux"; "Mac"] (Val 2) (Val sample_env)) <> [])
    by discriminate.
  exact (parse_success_document sample_host (held_state props_file Undef 0 true) "v2" _ Hne Hp Hcs).
Defined.

(** A file whose version is not undefined, 2, 3 or 4 is set to version 4
    without migrating its configurations; the unknown-version error is
    shown and the document is written back, or a write warning shown. *)
Theorem parse_unknown_version h st content newJson :
  content <> "" -> JSON_parse h content = Some (JsonDoc newJson) ->
  configurations newJson <> [] ->
  version newJson <> Undef -> version newJson <> Val 2 -> version newJson <> Val 3 ->
  version newJson <> Val 4 ->
  let j' := {| configurations := configurations (fixed_document h newJson);
               env := remove_disallowed (env newJson); version := Val 4 |} in
  exists st', parsePropertiesFile h (Some content) st = (st', Ok tt)
    /\ configurationJson st' = Val j'
    /\ shown st' = (shown st ++ ErrorUnknownVersion
                             :: (if write_ok h then [] else [WarningWriteFailed]))%list
    /\ written st' = (written st ++ (if write_ok h then [j'] else []))%list
    /\ fired st' = fired st.
Proof.
  intros Hne Hp Hcs U V2 V3 V4 j'.
  rewrite parsePropertiesFile_success with (newJson := newJson) by assumption.
  rewrite fixUpDocument_eq. cbv zeta.
  destruct (js_Z_eqb (version newJson) (Val configVersion)) eqn:V;
    [apply js_Z_eqb_Val in V; contradiction|]. cbn [negb].
  rewrite migrate_unknown by (cbn; assumption).
  destruct (write_ok h); eexists; (split; [reflexivity|]); cbn;
    rewrite <- ?app_assoc; repeat split; rewrite ?app_nil_r; reflexivity.
Qed.

(** A stable file: version 4 and every provider id already canonical. *)

Lemma parse_unknown_version_witness :
  let newJson := doc_v ["Linux"] (Val 7) Undef in
  let j' := {| configurations := configurations (fixed_document readonly_host newJson);
               env := remove_disallowed (env newJson); version := Val 4 |} in
  exists st', parsePropertiesFile readonly_host (Some "v7") (held_state props_file Undef 0 true)
              = (st', Ok tt)
    /\ configurationJson st' = Val j'
    /\ shown st' = [ErrorUnknownVersion; WarningWriteFailed]
    /\ written st' = []
    /\ fired st' = [].
Proof.
  intros newJson j'.
  assert (Hne : "v7" <> "") by discriminate.
  assert (Hp : JSON_parse readonly_host "v7" = Some (JsonDoc newJson)) by reflexivity.
  assert (Hcs : configurations newJson <> []) by discriminate.
  assert (U : version newJson <> Undef) by discriminate.
  assert (V2 : version newJson <> Val 2) by discriminate.
  assert (V3 : version newJson <> Val 3) by discriminate.
  assert (V4 : version newJson <> Val 4) by discriminate.
  exact (parse_unknown_version readonly_host (held_state props_file Undef 0 true) "v7" newJson
           Hne Hp Hcs U V2 V3 V4).
Defined.

(** Parsing a version-4 file whose provider ids checkId keeps shows no
    message, writes nothing and fires no event. *)
Theorem parse_stable_no_effects h st content newJson :
  content <> "" -> JSON_parse h content = Some (JsonDoc newJson) ->
  configurations newJson <> [] ->
  version newJson = Val 4 ->
  forallb (fun c => js_str_eqb (corrected_provider h c) (configurationProvider c))
          (configurations newJson) = true ->
  exists st', parsePropertiesFile h (Some content) st = (st', Ok tt)
    /\ configurationJson st' = Val {| configurations := configurations newJson;
                                      env := remove_disallowed (env newJson);
                                      version := Val 4 |}
    /\ configurationIncomplete st' = false
    /\ shown st' = shown st /\ written st' = written st /\ fired st' = fired st.
Proof.
  intros Hne Hp Hcs V4 Hst0.
  assert (Hst : forall c, In c (configurations newJson) ->
                          corrected_provider h c = configurationProvider c).
  { intros c Hc. rewrite forallb_forall in Hst0. apply js_str_eqb_eq, Hst0, Hc. }
  rewrite parsePropertiesFile_success with (newJson := newJson) by assumption.
  rewrite fixUpDocument_eq. cbv zeta. rewrite V4. cbn [js_Z_eqb configVersion negb Z.eqb Pos.eqb].
  assert (D : existsb (fun c => negb (js_str_eqb (corrected_provider h c) (configurationProvider c)))
                      (configurations newJson) = false).
  { apply not_true_iff_false. intro E. apply existsb_exists in E as (c & Hc & E).
    rewrite Hst in E by exact Hc. destruct (configurationProvider c) as [| |s]; cbn in E;
    try discriminate. rewrite String.eqb_refl in E. discriminate. }
  rewrite D. eexists. split; [reflexivity|]. cbn.
  assert (Mc : map (fun c => set_configurationProvider (corrected_provider h c) c)
                   (configurations newJson) = configurations newJson).
  { rewrite <- map_id. apply map_ext_in. intros c Hc. rewrite Hst by exact Hc.
    destruct c; reflexivity. }
  unfold fixed_document. rewrite Mc, V4, !app_nil_r. repeat split.
Qed.

Lemma parse_stable_no_effects_witness :
  let newJson := doc_v ["Win32"; "Linux"] (Val 4) (Val sample_env) in
  exists st', parsePropertiesFile sample_host (Some "v4") (held_state props_file Undef 0 true)
              = (st', Ok tt)
    /\ configurationJson st' = Val {| configurations := configurations newJson;
                                      env := Val [("arch", EnvStr "x64")];
                                      version := Val 4 |}
    /\ configurationIncomplete st' = false
    /\ shown st' = [] /\ written st' = [] /\ fired st' = [].
Proof.
  intros newJson.
  assert (Hne : "v4" <> "") by discriminate.
  assert (Hp : JSON_parse sample_host "v4" = Some (JsonDoc newJson)) by reflexivity.
  assert (Hcs : configurations newJson <> []) by discriminate.
  assert (V4 : version newJson = Val 4) by reflexivity.
  assert (Hst : forallb (fun c => js_str_eqb (corrected_provider sample_host c)
                                             (configurationProvider c))
                        (configurations newJson) = true) by reflexivity.
  exact (parse_stable_no_effects sample_host (held_state props_file Undef 0 true) "v4" newJson
           Hne Hp Hcs V4 Hst).
Defined.

(** In ExtendedEnvironment, workspaceFolderBasename is the root folder's
    basename, and every other variable is looked up in the document env. *)
Theorem ExtendedEnvironment_lookup h j k :
  env_lookup (ExtendedEnvironment h j) k =
  if String.eqb k "workspaceFolderBasename" then Some (EnvStr (rootBasename h))
  else env_lookup (match env j with Val e => e | _ => [] end) k.
Proof.
  unfold ExtendedEnvironment.
  destruct (existsb _ _) eqn:E.
  - rewrite lookup_replace, E. reflexivity.
  - apply lookup_append_absent. exact E.
Qed.

(** resolveAndSplit yields no empty entry when the default has none. *)
Theorem resolveAndSplit_no_empty paths dv e :
  forallb nonempty (match dv with Some d => d | None => [] end) = true ->
  forallb nonempty (resolveAndSplit paths dv e) = true.
Proof.
  intros Hd. destruct paths as [| |ps]; [reflexivity|reflexivity|].
  rewrite resolveAndSplit_flat_map. apply forallb_forall. intros x Hin.
  apply in_flat_map in Hin as (entry & _ & Hin).
  apply in_flat_map in Hin as (piece & Hp & Hin).
  apply filter_In in Hp as [_ Hne]. unfold expand_piece in Hin.
  destruct (String.eqb piece default_token).
  - destruct dv as [d|]; [|destruct Hin].
    rewrite forallb_forall in Hd. exact (Hd x Hin).
  - destruct Hin as [Hq|[]]. subst piece. exact Hne.
Qed.

Lemma resolveAndSplit_no_empty_witness :
  forallb nonempty (resolveAndSplit (Val [";/a;;${default}"; ""]) (Some ["/sys"]) []) = true.
Proof.
  assert (Hd : forallb nonempty (match Some ["/sys"] with Some d => d | None => [] end) = true)
    by reflexivity.
  exact (resolveAndSplit_no_empty (Val [";/a;;${default}"; ""]) (Some ["/sys"]) [] Hd).
Defined.

(** The version-4 migration of a configuration never overwrites a defined
    intelliSenseMode or compilerPath nor a non-empty cStandard or
    cppStandard, and keeps every other field; an empty cStandard is
    replaced by the default one. *)
Theorem updateConfigToVersion4_preserves h st c :
  let c' := updateConfigToVersion4 h st c in
  (intelliSenseMode c <> Undef -> intelliSenseMode c' = intelliSenseMode c)
  /\ (compilerPath c <> Undef -> compilerPath c' = compilerPath c)
  /\ (truthy_str (cStandard c) = true -> cStandard c' = cStandard c)
  /\ (truthy_str (cppStandard c) = true -> cppStandard c' = cppStandard c)
  /\ (cStandard c = Val "" -> truthy_str (defaultCStandard st) = true ->
      truthy_str (CppSettings.defaultCStandard (settings h)) = false ->
      cStandard c' = defaultCStandard st)
  /\ name c' = name c /\ includePath c' = includePath c
  /\ macFrameworkPath c' = macFrameworkPath c /\ windowsSdkVersion c' = windowsSdkVersion c
  /\ defines c' = defines c /\ compileCommands c' = compileCommands c
  /\ forcedInclude c' = forcedInclude c
  /\ configurationProvider c' = configurationProvider c /\ browse c' = browse c.
Proof.
  unfold updateConfigToVersion4. cbv zeta.
  repeat match goal with
         | |- context [if ?b then _ else _] =>
             match b with
             | context [if _ then _ else _] => fail 1
             | _ => destruct b eqn:?
             end
         end.
  all: cbn in *.
  all: repeat split; try reflexivity.
  all: intro H.
  all: try reflexivity.
  all: repeat match goal with
         | E : (_ && _) = true |- _ => apply andb_true_iff in E as [E ?]
         end.
  all: try (destruct (intelliSenseMode c); cbn in *; congruence).
  all: try (destruct (compilerPath c); cbn in *; congruence).
  all: try (rewrite H in *; cbn in *; discriminate).
  all: intros Ha Hb.
  all: rewrite H in *; cbn in *; rewrite ?Ha, ?Hb in *; cbn in *; discriminate.
Qed.

Lemma updateConfigToVersion4_preserves_witness :
  cStandard (updateConfigToVersion4 sample_host (held_state props_file Undef 0 true) linux_config)
  = Val "c11".
Proof.
  destruct (updateConfigToVersion4_preserves sample_host (held_state props_file Undef 0 true)
              linux_config) as (_ & _ & _ & _ & E & _).
  assert (Hc : cStandard linux_config = Val "") by reflexivity.
  assert (Hs : truthy_str (defaultCStandard (held_state props_file Undef 0 true)) = true)
    by reflexivity.
  assert (Hn : truthy_str (CppSettings.defaultCStandard (settings sample_host)) = false)
    by reflexivity.
  exact (E Hc Hs Hn).
Defined.

(** With no browse path of its own and no default browse path, a
    configuration's browse path becomes its resolved include path [ip]:
    unchanged when an entry of [ip] names the workspace root or folder,
    with ${workspaceFolder} appended otherwise. *)
Theorem updateConfigurationEntry_browse_fallback h e c ip :
  (forall b, browse c = Val b -> truthy (path b) = false) ->
  CppSettings.defaultBrowsePath (settings h) = None ->
  includePath (updateConfigurationEntry h e c) = Val ip ->
  exists bp, browse (updateConfigurationEntry h e c) = Val bp
    /\ ((exists x, In x ip /\ In x workspace_root_forms) -> path bp = Val ip)
    /\ (~ (exists x, In x ip /\ In x workspace_root_forms) ->
        path bp = Val (ip ++ ["${workspaceFolder}"])%list).
Proof.
  intros Hb Hd Hip. unfold updateConfigurationEntry in Hip |- *. cbn [includePath] in Hip.
  cbv zeta. rewrite Hd, Hip.
  assert (Hroot : existsb (fun v => existsb (String.eqb v) workspace_root_forms) ip = true
                  <-> exists x, In x ip /\ In x workspace_root_forms).
  { rewrite existsb_exists. split.
    - intros (x & Hx & Hw). apply existsb_exists in Hw as (y & Hy & Hxy).
      apply String.eqb_eq in Hxy. subst y. eauto.
    - intros (x & Hx & Hw). exists x. split; [exact Hx|].
      apply existsb_exists. exists x. split; [exact Hw|]. apply String.eqb_refl. }
  destruct (browse c) as [| |b] eqn:Bc; [| | rewrite (Hb b eq_refl)]; cbn [truthy path negb].
  all: eexists; split; [reflexivity|]; cbn [path].
  all: destruct (existsb (fun v => existsb (String.eqb v) workspace_root_forms) ip) eqn:Ex.
  all: split; intro H; try reflexivity.
  all: first [ exfalso; apply H, Hroot, eq_refl
             | apply Hroot in H; discriminate ].
Qed.

Lemma updateConfigurationEntry_browse_fallback_witness :
  exists bp, browse (updateConfigurationEntry sample_host [] linux_config) = Val bp
    /\ ((exists x, In x ["/usr/include"] /\ In x workspace_root_forms) ->
        path bp = Val ["/usr/include"])
    /\ (~ (exists x, In x ["/usr/include"] /\ In x workspace_root_forms) ->
        path bp = Val (["/usr/include"] ++ ["${workspaceFolder}"])%list).
Proof.
  assert (Hb : forall b, browse linux_config = Val b -> truthy (path b) = false)
    by (intros b Hb; discriminate).
  assert (Hd : CppSettings.defaultBrowsePath (settings sample_host) = None) by reflexivity.
  assert (Hip : includePath (updateConfigurationEntry sample_host [] linux_config)
                = Val ["/usr/include"]) by (vm_compute; reflexivity).
  exact (updateConfigurationEntry_browse_fallback sample_host [] linux_config _ Hb Hd Hip).
Defined.

(** updateServerOnFolderSettingsChange rebuilds the compile-commands
    watchers, fires ConfigurationsChanged only when defaulting is complete,
    and shows or writes nothing. *)
Theorem updateServer_events h st j :
  configurationJson st = Val j ->
  let cs := map (updateConfigurationEntry h (ExtendedEnvironment h j)) (configurations j) in
  exists st', updateServerOnFolderSettingsChange h st = (st', Ok tt)
    /\ configurationJson st' = Val {| configurations := cs; env := env j; version := version j |}
    /\ fired st' = (fired st ++ CompileCommandsWatchersRebuilt
                              :: (if configurationIncomplete st then []
                                  else [ConfigurationsChanged cs]))%list
    /\ shown st' = shown st /\ written st' = written st.
Proof.
  intros Hj cs. unfold updateServerOnFolderSettingsChange, bind, get, modify, ret.
  rewrite Hj. cbn [configurationIncomplete add_effects set_json].
  destruct (configurationIncomplete st); cbn; eexists; (split; [reflexivity|]); cbn;
    rewrite ?app_nil_r, <- ?app_assoc; repeat split.
Qed.

Lemma updateServer_events_witness :
  let st := held_state props_file (Val three_configs) 0 false in
  let cs := map (updateConfigurationEntry sample_host (ExtendedEnvironment sample_host three_configs))
                (configurations three_configs) in
  exists st', updateServerOnFolderSettingsChange sample_host st = (st', Ok tt)
    /\ configurationJson st' = Val {| configurations := cs; env := Undef; version := Val 4 |}
    /\ fired st' = [CompileCommandsWatchersRebuilt; ConfigurationsChanged cs]
    /\ shown st' = [] /\ written st' = [].
Proof.
  intros st cs.
  assert (Hj : configurationJson st = Val three_configs) by reflexivity.
  exact (updateServer_events sample_host st three_configs Hj).
Defined.

(** A parsed value whose configurations is truthy and not of length 0,
    but not an array of configuration objects, passes the check of
    parsePropertiesFile: no StructuralError is raised for it. Either the
    remap loop reaches a [null] element and the TypeError is shown and
    rethrown with the document kept, or the run reaches the assignment of
    the new document with no error shown; for a value with no length
    (such as [5]) it is the latter, with nothing changed before it. *)
Theorem parse_unchecked_passes_check h st content cs :
  content <> "" -> JSON_parse h content = Some (JsonUnchecked cs) -> cs <> Entries [] ->
  (parsePropertiesFile h (Some content) st
     = (add_effects [ErrorFailedToParse TypeError] [] [] st, Throw TypeError)
   \/ exists s', parsePropertiesFile h (Some content) st = (s', Unmodelled)
                /\ shown s' = shown st /\ configurationJson s' = configurationJson st)
  /\ (cs = NoLength -> parsePropertiesFile h (Some content) st = (st, Unmodelled)).
Proof.
  intros Hne Hp Hcs. apply String.eqb_neq in Hne.
  assert (E : parsePropertiesFile h (Some content) st =
    match remap_unchecked st cs with
    | Ok (Some i) => (set_index i st, Unmodelled)
    | Ok None => (st, Unmodelled)
    | Throw e => (add_effects [ErrorFailedToParse e] [] [] st, Throw e)
    | Unmodelled => (st, Unmodelled)
    end).
  { unfold parsePropertiesFile, try_catch, bind, get, modify, throw, unmodelled.
    rewrite Hne, Hp.
    destruct cs as [|[|e0 es]]; [| congruence |];
      destruct (remap_unchecked st _) as [[i|]|e|]; reflexivity. }
  split.
  - rewrite E. destruct (remap_unchecked_result st cs) as [-> | (oi & ->)]; [left; reflexivity|].
    right. destruct oi as [i|]; eexists; split; try reflexivity; split; reflexivity.
  - intros ->. rewrite E. unfold remap_unchecked.
    destruct (negb (configurationIncomplete st)); [|reflexivity].
    destruct (configurationJson st) as [| |old]; try reflexivity.
    destruct (negb _); [|reflexivity].
    destruct (nth_Z _ _); reflexivity.
Qed.

Lemma parse_unchecked_passes_check_witness :
  let st := held_state props_file (Val three_configs) 0 false in
  (parsePropertiesFile sample_host (Some "{configurations: 5}") st
     = (add_effects [ErrorFailedToParse TypeError] [] [] st, Throw TypeError)
   \/ exists s', parsePropertiesFile sample_host (Some "{configurations: 5}") st = (s', Unmodelled)
                /\ shown s' = shown st /\ configurationJson s' = configurationJson st)
  /\ (NoLength = NoLength ->
      parsePropertiesFile sample_host (Some "{configurations: 5}") st = (st, Unmodelled)).
Proof.
  intros st.
  assert (Hne : "{configurations: 5}" <> "") by discriminate.
  assert (Hp : JSON_parse sample_host "{configurations: 5}" = Some (JsonUnchecked NoLength))
    by reflexivity.
  assert (Hcs : NoLength <> Entries []) by discriminate.
  exact (parse_unchecked_passes_check sample_host st "{configurations: 5}" NoLength Hne Hp Hcs).
Defined.

End ConfigurationExtras.
